(** * Availability computation of the booking backend ([backend/main.py])

    A shallow embedding of the three cooperating functions of the
    availability pipeline,

      - [get_business_hours]       (business-hours resolver),
      - [fetch_busy_intervals_ical] (busy-interval fetcher),
      - [generate_slots]           (slot enumerator and response builder),

    together with the [availability] endpoint that guards them, followed by
    the properties the specification states about them.

    Conventions of the embedding.

      - Python exceptions are values of [exn]; a computation yields an
        [outcome]: a value, a raised exception, or [OutOfFuel] when the
        bounded unrolling of a [while] loop was too short to reach its exit.
      - Everything outside the process (environment variables, the tz
        database, the [ics] package, the network) is read from a [World].
        Outward-facing actions are recorded in a trace of [io] events.
      - A [datetime] is a count of microseconds since 0001-01-01T00:00:00,
        its resolution and range being those of Python: adding a [timedelta]
        raises [OverflowError] when the result leaves years 1..9999.
      - Strings are [string]s whose characters stand for the code points
        U+0000..U+00FF. *)

From Stdlib Require Import ZArith List String Ascii Bool Lia Sorted Permutation.
Import ListNotations.
Open Scope Z_scope.

(* ===================================================================== *)
(** * Python runtime: exceptions and outcomes                            *)
(* ===================================================================== *)

Module Py.

(** The exception classes that matter here; all of them derive from
    [Exception], so an [except Exception] clause catches every one. *)
Inductive exn : Type :=
| ValueError
| OverflowError
| UnknownTimeZoneError
| ImportError
| OtherException (name : string).

Inductive outcome (A : Type) : Type :=
| Ok (a : A)
| Raise (e : exn)
| OutOfFuel.
Arguments Ok {A} a.
Arguments Raise {A} e.
Arguments OutOfFuel {A}.

(** What a call into a third-party package answers. *)
Inductive reply (A : Type) : Type :=
| Returns (a : A)
| Raises (e : exn).
Arguments Returns {A} a.
Arguments Raises {A} e.

Definition obind {A B} (o : outcome A) (f : A -> outcome B) : outcome B :=
  match o with
  | Ok a => f a
  | Raise e => Raise e
  | OutOfFuel => OutOfFuel
  end.

(** Outward-facing actions, in the order they are performed. *)
Inductive io : Type :=
| IoImport (module_name : string)
| IoHttpGet (url : string) (timeout_seconds : Z).

(** Computations that may act on the outside world. *)
Definition M (A : Type) : Type := (list io * outcome A)%type.

Definition ret {A} (a : A) : M A := ([], Ok a).

Definition bind {A B} (m : M A) (f : A -> M B) : M B :=
  match m with
  | (t, Ok a) => let (t', r) := f a in (t ++ t', r)
  | (t, Raise e) => (t, Raise e)
  | (t, OutOfFuel) => (t, OutOfFuel)
  end.

Definition pure_ {A} (o : outcome A) : M A := ([], o).

Definition emit (e : io) : M unit := ([e], Ok tt).

Definition answer {A} (r : reply A) : M A :=
  match r with
  | Returns a => ret a
  | Raises e => ([], Raise e)
  end.

(** [try: body / except Exception: handler]. *)
Definition try_except {A} (body : M A) (handler : M A) : M A :=
  match body with
  | (t, Raise _) => let (t', r) := handler in (t ++ t', r)
  | other => other
  end.

(** [str.isspace] on the code points below U+0100. *)
Definition isspace (c : ascii) : bool :=
  let n := N_of_ascii c in
  (((9 <=? n) && (n <=? 13)) || ((28 <=? n) && (n <=? 32))
   || (n =? 133) || (n =? 160))%N.

Fixpoint lstrip (s : string) : string :=
  match s with
  | String c s' => if isspace c then lstrip s' else s
  | EmptyString => EmptyString
  end.

Fixpoint rstrip (s : string) : string :=
  match s with
  | String c s' =>
      match rstrip s' with
      | EmptyString => if isspace c then EmptyString else String c EmptyString
      | r => String c r
      end
  | EmptyString => EmptyString
  end.

(** [s.strip()] *)
Definition strip (s : string) : string := rstrip (lstrip s).

(** [bool(s)] for [s : str]. *)
Definition str_truthy (s : string) : bool :=
  match s with EmptyString => false | _ => true end.

(** [bool(x)] for [x : Optional[str]]. *)
Definition opt_str_truthy (x : option string) : bool :=
  match x with Some s => str_truthy s | None => false end.

End Py.

Import Py.

Declare Scope py_scope.
Delimit Scope py_scope with py.
Notation "x <- m ;; k" := (bind m (fun x => k))
  (at level 61, m at next level, right associativity) : py_scope.
Notation "x <~ o ;; k" := (obind o (fun x => k))
  (at level 61, o at next level, right associativity) : py_scope.
Open Scope py_scope.

(* ===================================================================== *)
(** * The [datetime] module                                              *)
(* ===================================================================== *)

Module PyDatetime.

Definition MINYEAR : Z := 1.
Definition MAXYEAR : Z := 9999.
(** [date(9999, 12, 31).toordinal()] *)
Definition MAXORDINAL : Z := 3652059.

Definition US_PER_SECOND : Z := 1000000.
Definition US_PER_MINUTE : Z := 60 * US_PER_SECOND.
Definition US_PER_HOUR : Z := 60 * US_PER_MINUTE.
Definition US_PER_DAY : Z := 24 * US_PER_HOUR.

Record date : Type := mkdate { year : Z; month : Z; day : Z }.

(** [datetime.time(hour, minute)] *)
Record time : Type := mktime { hour : Z; minute : Z }.

Definition is_leap (y : Z) : bool :=
  (y mod 4 =? 0) && (negb (y mod 100 =? 0) || (y mod 400 =? 0)).

Definition days_before_year (y : Z) : Z :=
  let y' := y - 1 in y' * 365 + y' / 4 - y' / 100 + y' / 400.

Definition DAYS_IN_MONTH : list Z :=
  [-1; 31; 28; 31; 30; 31; 30; 31; 31; 30; 31; 30; 31].

Definition DAYS_BEFORE_MONTH : list Z :=
  [-1; 0; 31; 59; 90; 120; 151; 181; 212; 243; 273; 304; 334].

Definition days_in_month (y m : Z) : Z :=
  if (m =? 2) && is_leap y then 29 else nth (Z.to_nat m) DAYS_IN_MONTH 0.

Definition days_before_month (y m : Z) : Z :=
  nth (Z.to_nat m) DAYS_BEFORE_MONTH 0 + (if (m >? 2) && is_leap y then 1 else 0).

Definition ymd2ord (y m d : Z) : Z :=
  days_before_year y + days_before_month y m + d.

(** [d.toordinal()]: 0001-01-01 is day 1. *)
Definition toordinal (d : date) : Z := ymd2ord (year d) (month d) (day d).

(** [d.weekday()]: Monday is 0, Sunday is 6. *)
Definition weekday (d : date) : Z := (toordinal d + 6) mod 7.

(** What the [date] constructor checks. *)
Definition valid_date (y m d : Z) : bool :=
  (MINYEAR <=? y) && (y <=? MAXYEAR) && (1 <=? m) && (m <=? 12)
  && (1 <=? d) && (d <=? days_in_month y m).

(** ** Parsing with the format ["%Y-%m-%d"] *)

Definition is_digit (c : ascii) : bool :=
  let n := N_of_ascii c in ((48 <=? n) && (n <=? 57))%N.

Definition digit_val (c : ascii) : Z := Z.of_N (N_of_ascii c) - 48.

Definition in_range (lo hi : Z) (c : ascii) : bool :=
  is_digit c && (lo <=? digit_val c) && (digit_val c <=? hi).

(** The directive [%m] is the regular expression [1[0-2]|0[1-9]|[1-9]];
    the literal [-] of the format has to follow it. *)
Definition parse_month (s : string) : option (Z * string) :=
  match s with
  | String a (String "-" rest) =>
      if in_range 1 9 a then Some (digit_val a, rest) else None
  | String a (String b (String "-" rest)) =>
      if (in_range 1 1 a && in_range 0 2 b) || (in_range 0 0 a && in_range 1 9 b)
      then Some (10 * digit_val a + digit_val b, rest)
      else None
  | _ => None
  end.

(** The directive [%d] is [3[0-1]|[1-2]\d|0[1-9]|[1-9]| [1-9]], the first
    alternative that matches being taken; input left over after it is an
    error ("unconverted data remains"). *)
Definition parse_day (s : string) : option Z :=
  match s with
  | String a EmptyString =>
      if in_range 1 9 a then Some (digit_val a) else None
  | String a (String b EmptyString) =>
      if (in_range 3 3 a && in_range 0 1 b)
         || (in_range 1 2 a && is_digit b)
         || (in_range 0 0 a && in_range 1 9 b)
      then Some (10 * digit_val a + digit_val b)
      else if Ascii.eqb a " " && in_range 1 9 b then Some (digit_val b)
      else None
  | _ => None
  end.

(** [datetime.strptime(s, "%Y-%m-%d")]; the result is midnight of the
    parsed day, represented by its date. *)
Definition strptime (s : string) : outcome date :=
  match s with
  | String y1 (String y2 (String y3 (String y4 (String "-" rest)))) =>
      if is_digit y1 && is_digit y2 && is_digit y3 && is_digit y4 then
        let y := 1000 * digit_val y1 + 100 * digit_val y2
                 + 10 * digit_val y3 + digit_val y4 in
        match parse_month rest with
        | Some (m, rest') =>
            match parse_day rest' with
            | Some d => if valid_date y m d then Ok (mkdate y m d)
                        else Raise ValueError
            | None => Raise ValueError
            end
        | None => Raise ValueError
        end
      else Raise ValueError
  | _ => Raise ValueError
  end.

End PyDatetime.

Import PyDatetime.

Module PyAware.

(** A naive [datetime] is its wall-clock reading, in microseconds since
    0001-01-01T00:00:00.  An aware one carries the UTC offset of the
    [tzinfo] object attached to it, in microseconds as well. *)
Record aware : Type := mkaware { wall : Z; utcoffset : Z }.

Inductive datetime : Type :=
| Naive (w : Z)
| Aware (a : aware).

(** The point on the UTC time line an aware datetime denotes.  Ordering
    comparisons between aware datetimes are comparisons of instants. *)
Definition instant (a : aware) : Z := wall a - utcoffset a.

Definition dt_lt (a b : aware) : bool := instant a <? instant b.
Definition dt_le (a b : aware) : bool := instant a <=? instant b.
Definition dt_gt (a b : aware) : bool := instant b <? instant a.

(** [max(a, b)] and [min(a, b)]: the first argument is kept unless the
    second beats it. *)
Definition dt_max (a b : aware) : aware := if dt_gt b a then b else a.
Definition dt_min (a b : aware) : aware := if dt_lt b a then b else a.

(** Wall-clock readings from 0001-01-01T00:00:00 to
    9999-12-31T23:59:59.999999. *)
Definition representable (w : Z) : bool :=
  (0 <=? w) && (w <? MAXORDINAL * US_PER_DAY).

(** [datetime(d.year, d.month, d.day, 0, 0, 0)] *)
Definition midnight (d : date) : Z := (toordinal d - 1) * US_PER_DAY.

(** [datetime.combine(d, t)] *)
Definition combine (d : date) (t : time) : Z :=
  midnight d + hour t * US_PER_HOUR + minute t * US_PER_MINUTE.

(** [timedelta(minutes=m)], a number of microseconds; the day count of a
    [timedelta] is limited to nine decimal digits. *)
Definition timedelta_minutes (m : Z) : outcome Z :=
  if Z.abs (m / (24 * 60)) <=? 999999999 then Ok (m * US_PER_MINUTE)
  else Raise OverflowError.

(** [a + delta] keeps the [tzinfo] of [a] and moves its wall clock. *)
Definition aware_add (a : aware) (delta : Z) : outcome aware :=
  if representable (wall a + delta)
  then Ok (mkaware (wall a + delta) (utcoffset a))
  else Raise OverflowError.

Definition datetime_add (d : datetime) (delta : Z) : outcome datetime :=
  match d with
  | Naive w =>
      if representable (w + delta) then Ok (Naive (w + delta))
      else Raise OverflowError
  | Aware a => a' <~ aware_add a delta;; Ok (Aware a')
  end.

(** A [pytz] time zone: the offset [localize] attaches to a wall-clock
    reading (with the default [is_dst=False]), and the offset in force at a
    UTC instant. *)
Record tzinfo : Type := mktz { local_offset : Z -> Z; utc_offset : Z -> Z }.

(** [tz.localize(naive)] *)
Definition localize (tz : tzinfo) (w : Z) : aware :=
  mkaware w (local_offset tz w).

(** [a.astimezone(tz)]: to UTC first, then to the wall clock of [tz]. *)
Definition astimezone (tz : tzinfo) (a : aware) : outcome aware :=
  let u := instant a in
  if representable u then
    let off := utc_offset tz u in
    if representable (u + off) then Ok (mkaware (u + off) off)
    else Raise OverflowError
  else Raise OverflowError.

End PyAware.

Import PyAware.

(* ===================================================================== *)
(** * The world outside the process                                      *)
(* ===================================================================== *)

Module Outside.

(** An HTTP response: what [raise_for_status] does, and the body. *)
Record Response : Type :=
  mkResponse { status_error : option exn; text : string }.

(** A calendar event of the [ics] package, as far as the fetcher looks at
    it: the answer of [event.begin.datetime], and the answer of
    [event.end] followed by [.datetime] ([None] for a falsy [event.end]). *)
Record Event : Type :=
  mkEvent { begin_datetime : reply datetime;
            end_datetime : reply (option datetime) }.

Record World : Type := mkWorld {
  environ : string -> option string;
  pytz_timezone : string -> option tzinfo;
  ics_import : reply unit;
  requests_get : string -> reply Response;
  ics_Calendar : string -> reply (list Event)
}.

(** [os.getenv(name)] *)
Definition getenv (w : World) (name : string) : option string :=
  environ w name.

(** [os.getenv(name, default)] *)
Definition getenv_default (w : World) (name default : string) : string :=
  match environ w name with
  | Some v => v
  | None => default
  end.

Definition of_reply {A} (r : reply A) : outcome A :=
  match r with
  | Returns a => Ok a
  | Raises e => Raise e
  end.

Definition raise_for_status (resp : Response) : M unit :=
  match status_error resp with
  | Some e => ([], Raise e)
  | None => ret tt
  end.

End Outside.

Import Outside.

(* ===================================================================== *)
(** * [backend/main.py]                                                  *)
(* ===================================================================== *)

Module Main.

(** A busy period: a pair [(start, end)] of aware datetimes. *)
Definition interval : Type := (aware * aware)%type.

Record AvailabilityResponse : Type := mkAvailabilityResponse {
  date_ : string;
  timezone : string;
  slot_minutes : Z;
  (** the start of each free slot; [isoformat()] renders the wall clock and
      the offset of each, and is left unapplied *)
  slots : list aware;
  configured : bool
}.

(** ** Business-hours resolver *)

Definition get_business_hours (day : date) : option (time * time) :=
  let weekday := weekday day in
  if existsb (Z.eqb weekday) [0; 1; 2; 3; 4] then
    Some (mktime 9 0, mktime 18 0)
  else if weekday =? 5 then
    Some (mktime 10 0, mktime 14 0)
  else
    None.

(** ** Busy-interval fetcher *)

(** The body of the [try] inside the loop over the events. *)
Definition event_fields (event : Event) : outcome (datetime * datetime) :=
  ev_start <~ of_reply (begin_datetime event);;
  ev_end <~ (e <~ of_reply (end_datetime event);;
             match e with
             | Some d => Ok d
             | None =>
                 b <~ of_reply (begin_datetime event);;
                 datetime_add b (30 * US_PER_MINUTE)
             end);;
  Ok (ev_start, ev_end).

(** "normalize to aware datetimes in local tz" *)
Definition normalize (tz : tzinfo) (d : datetime) : outcome aware :=
  match d with
  | Naive w => Ok (localize tz w)
  | Aware a => astimezone tz a
  end.

(** The loop [for event in cal.events], started with the list [busy]. *)
Fixpoint collect_busy (tz : tzinfo) (start_of_day end_of_day : aware)
    (events : list Event) (busy : list interval) : outcome (list interval) :=
  match events with
  | [] => Ok busy
  | event :: rest =>
      match event_fields event with
      | Raise _ => collect_busy tz start_of_day end_of_day rest busy
      | OutOfFuel => OutOfFuel
      | Ok (ev_start, ev_end) =>
          ev_start <~ normalize tz ev_start;;
          ev_end <~ normalize tz ev_end;;
          let latest_start := dt_max ev_start start_of_day in
          let earliest_end := dt_min ev_end end_of_day in
          collect_busy tz start_of_day end_of_day rest
            (if dt_lt latest_start earliest_end
             then busy ++ [(latest_start, earliest_end)]
             else busy)
      end
  end.

(** [busy.sort(key=lambda x: x[0])]: the sort is stable, so it is the
    insertion of each element in front of the first one that does not start
    before it. *)
Fixpoint insert_by_start (x : interval) (l : list interval) : list interval :=
  match l with
  | [] => [x]
  | y :: l' => if dt_lt (fst y) (fst x) then y :: insert_by_start x l'
               else x :: l
  end.

Definition sort_by_start (busy : list interval) : list interval :=
  fold_right insert_by_start [] busy.

(** One round of [for s, e in busy] on the list [merged]. *)
Definition merge_one (merged : list interval) (x : interval) : list interval :=
  let '(s, e) := x in
  match merged with
  | [] => merged ++ [(s, e)]
  | m0 :: _ =>
      let top := last merged m0 in
      if dt_gt s (snd top) then merged ++ [(s, e)]
      else removelast merged ++ [(fst top, dt_max (snd top) e)]
  end.

Definition merge (busy : list interval) : list interval :=
  fold_left merge_one busy [].

(** Lines 143-152: sort, then merge. *)
Definition sort_and_merge (busy : list interval) : list interval :=
  merge (sort_by_start busy).

Definition fetch_busy_intervals_ical (w : World) (date_local : date)
    (tz : tzinfo) : M (list interval) :=
  let ical_url := strip (getenv_default w "GOOGLE_CALENDAR_ICAL_URL" "") in
  if negb (str_truthy ical_url) then ret []
  else
    imported <- try_except
                  (_ <- emit (IoImport "ics");;
                   _ <- answer (ics_import w);;
                   ret true)
                  (ret false);;
    if negb imported then ret []
    else
      cal <- try_except
               (_ <- emit (IoHttpGet ical_url 10);;
                resp <- answer (requests_get w ical_url);;
                _ <- raise_for_status resp;;
                events <- answer (ics_Calendar w (text resp));;
                ret (Some events))
               (ret None);;
      match cal with
      | None => ret []
      | Some events =>
          let start_of_day := localize tz (midnight date_local) in
          end_of_day <- pure_ (aware_add start_of_day US_PER_DAY);;
          busy <- pure_ (collect_busy tz start_of_day end_of_day events []);;
          ret (sort_and_merge busy)
      end.

(** ** Slot enumerator *)

(** The nested function [is_free], over the [busy] list it closes over. *)
Fixpoint is_free (busy : list interval) (s e : aware) : bool :=
  match busy with
  | [] => true
  | (b_start, b_end) :: busy' =>
      if dt_lt s b_end && dt_gt e b_start then false
      else is_free busy' s e
  end.

(** The loop [while cur + delta <= end], unrolled at most [fuel] times. *)
Fixpoint slots_loop (fuel : nat) (busy : list interval) (end_ : aware)
    (delta : Z) (cur : aware) (slots : list aware) : outcome (list aware) :=
  match fuel with
  | O => OutOfFuel
  | S fuel' =>
      bound <~ aware_add cur delta;;
      if dt_le bound end_ then
        let s := cur in
        e <~ aware_add cur delta;;
        let slots := if is_free busy s e then slots ++ [s] else slots in
        cur <~ aware_add cur delta;;
        slots_loop fuel' busy end_ delta cur slots
      else Ok slots
  end.

Definition generate_slots (fuel : nat) (w : World) (date_str : string)
    (slot_minutes : Z) : M AvailabilityResponse :=
  let tz_name := getenv_default w "BUSINESS_TZ" "Europe/Amsterdam" in
  match pytz_timezone w tz_name with
  | None => pure_ (Raise UnknownTimeZoneError)
  | Some tz =>
      date_local <- pure_ (strptime date_str);;
      let hours := get_business_hours date_local in
      match hours with
      | None =>
          ret (mkAvailabilityResponse date_str tz_name slot_minutes []
                 (opt_str_truthy (getenv w "GOOGLE_CALENDAR_ICAL_URL")))
      | Some (open_t, close_t) =>
          let start := localize tz (combine date_local open_t) in
          let end_ := localize tz (combine date_local close_t) in
          busy <- fetch_busy_intervals_ical w date_local tz;;
          let cur := start in
          let slots := [] in
          delta <- pure_ (timedelta_minutes slot_minutes);;
          slots <- pure_ (slots_loop fuel busy end_ delta cur slots);;
          ret (mkAvailabilityResponse date_str tz_name slot_minutes slots
                 (opt_str_truthy (getenv w "GOOGLE_CALENDAR_ICAL_URL")))
      end
  end.

(** ** The endpoint *)

(** The pattern [^\d{4}-\d{2}-\d{2}$] of the [date] query parameter. *)
Definition date_pattern (s : string) : bool :=
  match s with
  | String y1 (String y2 (String y3 (String y4 (String "-"
      (String m1 (String m2 (String "-"
        (String d1 (String d2 EmptyString))))))))) =>
      is_digit y1 && is_digit y2 && is_digit y3 && is_digit y4
      && is_digit m1 && is_digit m2 && is_digit d1 && is_digit d2
  | _ => false
  end.

(** [GET /api/availability]: a [date] the pattern refuses is answered by the
    framework ([None]) and the handler is not run. *)
Definition availability (fuel : nat) (w : World) (date : string)
    (slot_minutes : Z) : option (M AvailabilityResponse) :=
  if date_pattern date then Some (generate_slots fuel w date slot_minutes)
  else None.

End Main.

Import Main.

(* ===================================================================== *)
(** * [backend/main.py]: the diagnostic endpoint                         *)
(* ===================================================================== *)

Module Diagnostics.

Local Open Scope string_scope.

(** The object [db] of the [database] module, as far as the endpoint looks
    at it: its attribute [name], if it has one, and the answer of
    [db.list_collection_names()]. *)
Record Database : Type :=
  mkDatabase { db_name : option string;
               list_collection_names : reply (list string) }.

(** The [database] module: the answer of [from database import db] ([None]
    for a [db] that is [None]), and the text [str(e)] of an exception. *)
Record DbModule : Type :=
  mkDbModule { import_db : reply (option Database);
               str_of : exn -> string }.

(** The dictionary [response], by its six keys.  The marks of the status
    texts are written by their UTF-8 bytes. *)
Record Diagnosis : Type := mkDiagnosis {
  backend : string;
  database : string;
  database_url : option string;
  database_name : option string;
  connection_status : string;
  collections : list string
}.

(** [response["database"] = v], and so on. *)
Definition set_database (r : Diagnosis) (v : string) : Diagnosis :=
  mkDiagnosis (backend r) v (database_url r) (database_name r)
    (connection_status r) (collections r).

Definition set_database_url (r : Diagnosis) (v : option string) : Diagnosis :=
  mkDiagnosis (backend r) (database r) v (database_name r)
    (connection_status r) (collections r).

Definition set_database_name (r : Diagnosis) (v : option string) : Diagnosis :=
  mkDiagnosis (backend r) (database r) (database_url r) v
    (connection_status r) (collections r).

Definition set_connection_status (r : Diagnosis) (v : string) : Diagnosis :=
  mkDiagnosis (backend r) (database r) (database_url r) (database_name r)
    v (collections r).

Definition set_collections (r : Diagnosis) (v : list string) : Diagnosis :=
  mkDiagnosis (backend r) (database r) (database_url r) (database_name r)
    (connection_status r) v.

(** [try: body / except ... as e: handler]. *)
Definition try_catch {A} (body : M A) (handler : exn -> M A) : M A :=
  match body with
  | (t, Raise e) => let (t', r) := handler e in ((t ++ t')%list, r)
  | other => other
  end.

(** [isinstance(e, ImportError)]: the constructor stands for the class and
    its subclasses. *)
Definition is_import_error (e : exn) : bool :=
  match e with
  | ImportError => true
  | _ => false
  end.

(** [GET /test] *)
Definition test_database (w : World) (dbm : DbModule) : M Diagnosis :=
  let response :=
    mkDiagnosis "✅ Running" "❌ Not Available" None None "Not Connected" [] in
  response <-
    try_catch
      (_ <- emit (IoImport "database");;
       db <- answer (import_db dbm);;
       match db with
       | Some db =>
           let response := set_database response "✅ Available" in
           let response := set_database_url response (Some "✅ Configured") in
           let response :=
             set_database_name response
               (Some (match db_name db with
                      | Some name => name
                      | None => "✅ Connected"
                      end)) in
           let response := set_connection_status response "Connected" in
           try_catch
             (collections <- answer (list_collection_names db);;
              let response := set_collections response (firstn 10 collections) in
              ret (set_database response "✅ Connected & Working"))
             (fun e =>
                ret (set_database response
                       ("⚠️  Connected but Error: "
                        ++ substring 0 50 (str_of dbm e))))
       | None =>
           ret (set_database response "⚠️  Available but not initialized")
       end)
      (fun e =>
         if is_import_error e then
           ret (set_database response
                  "❌ Database module not found (run enable-database first)")
         else
           ret (set_database response
                  ("❌ Error: " ++ substring 0 50 (str_of dbm e))));;
  let response :=
    set_database_url response
      (Some (if opt_str_truthy (getenv w "DATABASE_URL")
             then "✅ Set" else "❌ Not Set")) in
  let response :=
    set_database_name response
      (Some (if opt_str_truthy (getenv w "DATABASE_NAME")
             then "✅ Set" else "❌ Not Set")) in
  ret response.

End Diagnostics.

Import Diagnostics.

(* ===================================================================== *)
(** * Vocabulary of the properties                                       *)
(* ===================================================================== *)

Module Props.

(** [x] starts no later than [y]. *)
Definition start_le (x y : interval) : Prop :=
  instant (fst x) <= instant (fst y).

(** [x] is over strictly before [y] begins: no overlap, no touching. *)
Definition apart (x y : interval) : Prop :=
  instant (snd x) < instant (fst y).

(** The invariant of an interval: it begins before it ends. *)
Definition proper (x : interval) : Prop :=
  instant (fst x) < instant (snd x).

(** The half-open overlap test of [is_free]. *)
Definition overlaps (s e : aware) (b : interval) : bool :=
  dt_lt s (snd b) && dt_gt e (fst b).

(** The slot [[s, e)] is next to [b]: it ends when [b] starts, or starts
    when [b] ends. *)
Definition touches (s e : aware) (b : interval) : Prop :=
  instant e = instant (fst b) \/ instant s = instant (snd b).

(** The [k]-th position of the cursor of the slot loop. *)
Definition candidate (delta : Z) (start : aware) (k : nat) : aware :=
  mkaware (wall start + Z.of_nat k * delta) (utcoffset start).

(** What [merge] does once [merged] holds at least one interval, [top]
    being its last element: the intervals that leave the loop, in order. *)
Fixpoint coalesce (top : interval) (l : list interval) : list interval :=
  match l with
  | [] => [top]
  | x :: l' =>
      if dt_gt (fst x) (snd top) then top :: coalesce x l'
      else coalesce (fst top, dt_max (snd top) (snd x)) l'
  end.

(** Enough unrollings for the slot loop to leave a window. *)
Definition enough_fuel (start end_ : aware) (delta : Z) : nat :=
  S (Z.to_nat ((instant end_ - instant start) / delta)).

(** The feed URL as the fetcher reads it (line 98). *)
Definition ical_url (w : World) : string :=
  strip (getenv_default w "GOOGLE_CALENDAR_ICAL_URL" "").

(** The zone name as [generate_slots] reads it (line 156). *)
Definition tz_name (w : World) : string :=
  getenv_default w "BUSINESS_TZ" "Europe/Amsterdam".

(** The flag as [generate_slots] computes it (lines 165 and 193). *)
Definition url_flag (w : World) : bool :=
  opt_str_truthy (getenv w "GOOGLE_CALENDAR_ICAL_URL").

(** The number of slots that fit in the window, busy or not. *)
Definition rounds (start end_ : aware) (delta : Z) : nat :=
  Z.to_nat ((instant end_ - instant start) / delta).

(** The first [n] positions of the cursor. *)
Definition candidates (delta : Z) (start : aware) (n : nat) : list aware :=
  map (candidate delta start) (seq 0 n).

(** The slot of length [delta] that starts at [s] is free. *)
Definition free_slot (busy : list interval) (delta : Z) (s : aware) : bool :=
  is_free busy s (mkaware (wall s + delta) (utcoffset s)).

(** [a] comes strictly before [b]. *)
Definition before (a b : aware) : Prop := instant a < instant b.

(** The interval lies within the day that runs from [start_of_day] to
    [end_of_day]. *)
Definition within (start_of_day end_of_day : aware) (b : interval) : Prop :=
  instant start_of_day <= instant (fst b)
  /\ instant (snd b) <= instant end_of_day.

(** The number a string of digits denotes, continuing from [acc]. *)
Fixpoint number (s : string) (acc : Z) : Z :=
  match s with
  | EmptyString => acc
  | String c s' => number s' (10 * acc + digit_val c)
  end.

(** The number written in the [len] characters of [s] from position [pos]. *)
Definition field (s : string) (pos len : nat) : Z :=
  number (substring pos len s) 0.

(** The length of the business window of the day, in minutes. *)
Definition open_minutes (d : date) : Z :=
  match get_business_hours d with
  | Some (open_t, close_t) =>
      (hour close_t * 60 + minute close_t) - (hour open_t * 60 + minute open_t)
  | None => 0
  end.

(** The string holds nothing but whitespace. *)
Fixpoint blank (s : string) : bool :=
  match s with
  | EmptyString => true
  | String c s' => isspace c && blank s'
  end.

(** The first instant past the range of [datetime]. *)
Definition RANGE_END : Z := MAXORDINAL * US_PER_DAY.

(** The traces a call of the fetcher can leave. *)
Definition fetch_traces (w : World) : list (list io) :=
  [ [];
    [IoImport "ics"];
    [IoImport "ics"; IoHttpGet (ical_url w) 10] ].

(** The begin and the end of the event, once read, can be brought to the
    zone [tz] without leaving the range of [datetime]. *)
Definition normalizes (tz : tzinfo) (ev : Event) : Prop :=
  forall ev_start ev_end,
    event_fields ev = Ok (ev_start, ev_end) ->
    (exists a, normalize tz ev_start = Ok a)
    /\ (exists b, normalize tz ev_end = Ok b).

End Props.

Import Props.

(* ===================================================================== *)
(** * Sample worlds                                                      *)
(* ===================================================================== *)

Module Samples.

Open Scope string_scope.

Definition utc : tzinfo := mktz (fun _ => 0) (fun _ => 0).

(** Central European Time, as Europe/Amsterdam observes it in January. *)
Definition cet : tzinfo :=
  mktz (fun _ => 1 * US_PER_HOUR) (fun _ => 1 * US_PER_HOUR).

Definition tzdb (name : string) : option tzinfo :=
  if String.eqb name "Europe/Amsterdam" then Some cet
  else if String.eqb name "UTC" then Some utc
  else None.

Definition feed_url : string := "https://calendar.example/basic.ics".

(** A world whose feed, when asked for, is served and parses into
    [events]. *)
Definition world (url tz_name : option string) (events : list Event) : World :=
  mkWorld
    (fun name =>
       if String.eqb name "GOOGLE_CALENDAR_ICAL_URL" then url
       else if String.eqb name "BUSINESS_TZ" then tz_name
       else None)
    tzdb
    (Returns tt)
    (fun _ => Returns (mkResponse None "BEGIN:VCALENDAR"))
    (fun _ => Returns events).

Definition wednesday : date := mkdate 2024 1 3.
Definition saturday : date := mkdate 2024 1 6.
Definition sunday : date := mkdate 2024 1 7.

(** A local wall-clock reading on [d]. *)
Definition at_ (d : date) (h m : Z) : Z := combine d (mktime h m).

(** An event with naive local begin and end. *)
Definition event (d : date) (h1 m1 h2 m2 : Z) : Event :=
  mkEvent (Returns (Naive (at_ d h1 m1))) (Returns (Some (Naive (at_ d h2 m2)))).

(** A busy period on [d], in [tz]. *)
Definition busy_at (tz : tzinfo) (d : date) (h1 m1 h2 m2 : Z) : interval :=
  (localize tz (at_ d h1 m1), localize tz (at_ d h2 m2)).

(** A local instant of the sample Saturday, in CET. *)
Definition sat (h m : Z) : aware := localize cet (at_ saturday h m).

(** Scenario C: one busy hour at the opening of the Saturday window. *)
Definition busy_C : list interval := [busy_at cet saturday 10 0 11 0].

Definition world_C : World :=
  world (Some feed_url) None [event saturday 10 0 11 0].

(** Two busy hours with a free hour between them. *)
Definition busy_gap : list interval :=
  [busy_at cet saturday 10 0 11 0; busy_at cet saturday 12 0 13 0].

(** Three busy periods, out of order, two of them overlapping. *)
Definition busy_unsorted : list interval :=
  [busy_at cet wednesday 12 0 13 0; busy_at cet wednesday 9 30 10 30;
   busy_at cet wednesday 9 0 10 0].

(** No feed configured. *)
Definition world_plain : World := world None None [].

(** The feed URL set to a single space. *)
Definition world_blank : World := world (Some " ") None [].

(** A feed served and parsed, the zone being UTC. *)
Definition world_utc (events : list Event) : World :=
  world (Some feed_url) (Some "UTC") events.

(** The day before the sample Saturday. *)
Definition friday : date := mkdate 2024 1 5.

(** A feed that answers with an error status. *)
Definition world_down : World :=
  mkWorld
    (fun name =>
       if String.eqb name "GOOGLE_CALENDAR_ICAL_URL" then Some feed_url else None)
    tzdb
    (Returns tt)
    (fun _ => Returns (mkResponse (Some (OtherException "HTTPError")) "Not Found"))
    (fun _ => Returns []).

(** An event without a begin. *)
Definition broken_event : Event :=
  mkEvent (Raises (OtherException "AttributeError")) (Returns None).

(** An event from Friday 22:00 to Saturday 02:00. *)
Definition overnight_event : Event :=
  mkEvent (Returns (Naive (at_ friday 22 0)))
          (Returns (Some (Naive (at_ saturday 2 0)))).

(** The midnight that ends the sample Saturday, in CET. *)
Definition sat_end : aware := localize cet (midnight saturday + US_PER_DAY).

(** A database that lists twelve collections and has a name. *)
Definition twelve_collections : Database :=
  mkDatabase (Some "bookings")
    (Returns ["c01"; "c02"; "c03"; "c04"; "c05"; "c06";
              "c07"; "c08"; "c09"; "c10"; "c11"; "c12"]).

Definition db_module (db : reply (option Database)) : DbModule :=
  mkDbModule db (fun _ => "connection refused").

(** The last day of the calendar. *)
Definition last_day : date := mkdate 9999 12 31.

(** An event that begins at 9999-12-31T23:30:00+00:00 and lasts a minute. *)
Definition far_future_event : Event :=
  mkEvent
    (Returns (Aware (mkaware (combine last_day (mktime 23 30)) 0)))
    (Returns (Some (Aware (mkaware (combine last_day (mktime 23 31)) 0)))).

End Samples.

(* ===================================================================== *)
(** * The calendar                                                       *)
(* ===================================================================== *)

Section Calendar.

Example weekday_1970_01_01 : weekday (mkdate 1970 1 1) = 3.
Proof. reflexivity. Qed.

Example weekday_samples :
  weekday Samples.wednesday = 2 /\ weekday Samples.saturday = 5
  /\ weekday Samples.sunday = 6.
Proof. repeat split. Qed.

Example toordinal_max : toordinal (mkdate 9999 12 31) = MAXORDINAL.
Proof. reflexivity. Qed.

Example strptime_leap_day : strptime "2024-02-29" = Ok (mkdate 2024 2 29).
Proof. reflexivity. Qed.

Example strptime_short_fields : strptime "2024-1-5" = Ok (mkdate 2024 1 5).
Proof. reflexivity. Qed.

Example strptime_no_leap_day : strptime "2023-02-29" = Raise ValueError.
Proof. reflexivity. Qed.

Lemma weekday_range (d : date) : 0 <= weekday d <= 6.
Proof.
  unfold weekday.
  pose proof (Z.mod_pos_bound (toordinal d + 6) 7 ltac:(lia)). lia.
Qed.

End Calendar.

(* ===================================================================== *)
(** * Business hours                                                     *)
(* ===================================================================== *)

Section BusinessHours.

(** The seven values of [weekday d], one goal each. *)
Ltac weekday_cases d :=
  let R := fresh "R" in
  let C := fresh "C" in
  let E := fresh "E" in
  pose proof (weekday_range d) as R;
  assert (C : weekday d = 0 \/ weekday d = 1 \/ weekday d = 2 \/ weekday d = 3
              \/ weekday d = 4 \/ weekday d = 5 \/ weekday d = 6) by lia;
  unfold get_business_hours;
  destruct C as [E|[E|[E|[E|[E|[E|E]]]]]]; rewrite E; cbn.

(** C7.  For every calendar date the resolver answers by the weekday alone,
    and the weekday is one of seven: Monday to Friday (0..4) give the window
    09:00-18:00, Saturday (5) gives 10:00-14:00, Sunday (6) gives no window. *)
Theorem get_business_hours_policy (d : date) :
  (0 <= weekday d <= 4
   /\ get_business_hours d = Some (mktime 9 0, mktime 18 0))
  \/ (weekday d = 5
      /\ get_business_hours d = Some (mktime 10 0, mktime 14 0))
  \/ (weekday d = 6 /\ get_business_hours d = None).
Proof.
  weekday_cases d;
    [left | left | left | left | left | right; left | right; right];
    split; (lia || reflexivity).
Qed.

Lemma closed_iff_sunday (d : date) :
  get_business_hours d = None <-> weekday d = 6.
Proof.
  weekday_cases d; split; intros H; (discriminate H || reflexivity).
Qed.

Example business_hours_samples :
  get_business_hours Samples.wednesday = Some (mktime 9 0, mktime 18 0)
  /\ get_business_hours Samples.saturday = Some (mktime 10 0, mktime 14 0)
  /\ get_business_hours Samples.sunday = None.
Proof. repeat split. Qed.

End BusinessHours.

(* ===================================================================== *)
(** * Sorting and merging the busy intervals                             *)
(* ===================================================================== *)

Section Merge.

Lemma dt_gt_spec (a b : aware) : dt_gt a b = true <-> instant b < instant a.
Proof. unfold dt_gt. apply Z.ltb_lt. Qed.

Lemma dt_lt_spec (a b : aware) : dt_lt a b = true <-> instant a < instant b.
Proof. unfold dt_lt. apply Z.ltb_lt. Qed.

Lemma dt_le_spec (a b : aware) : dt_le a b = true <-> instant a <= instant b.
Proof. unfold dt_le. apply Z.leb_le. Qed.

Lemma dt_max_ge_l (a b : aware) : instant a <= instant (dt_max a b).
Proof.
  unfold dt_max. destruct (dt_gt b a) eqn:E; [apply dt_gt_spec in E|]; lia.
Qed.

(** ** The sort *)

Lemma insert_by_start_perm x l : Permutation (x :: l) (insert_by_start x l).
Proof.
  induction l as [|y l IH]; simpl; [reflexivity|].
  destruct (dt_lt (fst y) (fst x)); [|reflexivity].
  rewrite perm_swap. now constructor.
Qed.

Lemma sort_by_start_perm l : Permutation l (sort_by_start l).
Proof.
  induction l as [|x l IH]; simpl; [constructor|].
  rewrite <- insert_by_start_perm. now constructor.
Qed.

Lemma insert_by_start_sorted x l :
  StronglySorted start_le l -> StronglySorted start_le (insert_by_start x l).
Proof.
  induction 1 as [|y l S IH F]; simpl.
  - repeat constructor.
  - destruct (dt_lt (fst y) (fst x)) eqn:E.
    + constructor; [exact IH|].
      eapply Permutation_Forall; [apply insert_by_start_perm|].
      constructor; [|exact F].
      apply dt_lt_spec in E. unfold start_le. lia.
    + assert (L : start_le x y).
      { unfold start_le. unfold dt_lt in E. apply Z.ltb_ge in E. exact E. }
      constructor; [now constructor|].
      constructor; [exact L|].
      eapply Forall_impl; [|exact F].
      unfold start_le in *. intros; lia.
Qed.

Lemma sort_by_start_sorted l : StronglySorted start_le (sort_by_start l).
Proof.
  induction l; simpl; [constructor | now apply insert_by_start_sorted].
Qed.

(** A list that is already in order is left as it is. *)
Lemma sort_by_start_fixed l :
  StronglySorted start_le l -> sort_by_start l = l.
Proof.
  induction 1 as [|x l S IH F]; simpl; [reflexivity|].
  rewrite IH. destruct l as [|y l]; simpl; [reflexivity|].
  inversion F as [|? ? L _]; subst.
  unfold start_le in L. unfold dt_lt.
  destruct (Z.ltb_spec (instant (fst y)) (instant (fst x))); [lia | reflexivity].
Qed.

(** ** The merge loop, seen from its last element *)

Lemma merge_one_snoc pre top x :
  merge_one (pre ++ [top]) x =
  if dt_gt (fst x) (snd top) then pre ++ [top] ++ [x]
  else pre ++ [(fst top, dt_max (snd top) (snd x))].
Proof.
  destruct x as [s e]. unfold merge_one.
  destruct (pre ++ [top]) as [|m0 rest] eqn:E.
  - destruct pre; discriminate.
  - rewrite <- E. rewrite last_last, removelast_last. simpl.
    destruct (dt_gt s (snd top)); [|reflexivity].
    now rewrite <- app_assoc.
Qed.

Lemma fold_merge_coalesce l : forall pre top,
  fold_left merge_one l (pre ++ [top]) = pre ++ coalesce top l.
Proof.
  induction l as [|x l IH]; intros pre top; simpl; [reflexivity|].
  rewrite merge_one_snoc.
  destruct (dt_gt (fst x) (snd top)).
  - rewrite app_assoc, IH, <- app_assoc. reflexivity.
  - apply IH.
Qed.

Lemma merge_cons x l : merge (x :: l) = coalesce x l.
Proof.
  unfold merge. simpl.
  replace (merge_one [] x) with ([] ++ [x]) by (now destruct x).
  apply fold_merge_coalesce.
Qed.

Lemma coalesce_head top l :
  exists e rest, coalesce top l = (fst top, e) :: rest
                 /\ instant (snd top) <= instant e.
Proof.
  revert top. induction l as [|x l IH]; intros top; simpl.
  - exists (snd top), []. destruct top; simpl. split; [reflexivity | lia].
  - destruct (dt_gt (fst x) (snd top)).
    + exists (snd top), (coalesce x l). destruct top; simpl.
      split; [reflexivity | lia].
    + destruct (IH (fst top, dt_max (snd top) (snd x))) as (e & rest & E & L).
      exists e, rest. split; [exact E|].
      simpl in L. pose proof (dt_max_ge_l (snd top) (snd x)). lia.
Qed.

(** Neighbours in the output are strictly apart. *)
Lemma coalesce_apart l : forall top, Sorted apart (coalesce top l).
Proof.
  induction l as [|x l IH]; intros top; simpl.
  - repeat constructor.
  - destruct (dt_gt (fst x) (snd top)) eqn:E; [|apply IH].
    constructor; [apply IH|].
    destruct (coalesce_head x l) as (e & rest & -> & _).
    constructor. unfold apart. simpl. now apply dt_gt_spec.
Qed.

(** Every output interval starts where some input interval starts. *)
Lemma coalesce_starts l : forall top y,
  In y (coalesce top l) -> exists x, In x (top :: l) /\ fst y = fst x.
Proof.
  induction l as [|x l IH]; intros top y; simpl.
  - intros [<-|[]]. exists top. split; [now left | reflexivity].
  - destruct (dt_gt (fst x) (snd top)).
    + intros [<-|H].
      * exists top. split; [now left | reflexivity].
      * destruct (IH _ _ H) as (z & Hz & E). exists z. split; [now right | exact E].
    + intros H. destruct (IH _ _ H) as (z & [<-|Hz] & E).
      * exists top. split; [now left | exact E].
      * exists z. split; [now (right; right) | exact E].
Qed.

Lemma coalesce_sorted l : forall top,
  StronglySorted start_le (top :: l) -> StronglySorted start_le (coalesce top l).
Proof.
  induction l as [|x l IH]; intros top S; simpl.
  - exact S.
  - inversion S as [|? ? S' F]; subst.
    destruct (dt_gt (fst x) (snd top)).
    + constructor; [now apply IH|].
      apply Forall_forall. intros y Hy.
      destruct (coalesce_starts _ _ _ Hy) as (z & Hz & E).
      rewrite Forall_forall in F. specialize (F z Hz).
      unfold start_le in *. now rewrite E.
    + apply IH. inversion S' as [|? ? S'' F']; subst.
      constructor; [exact S''|].
      inversion F as [|? ? _ F'']; subst.
      eapply Forall_impl; [|exact F'']. unfold start_le. simpl. auto.
Qed.

Lemma coalesce_proper l : forall top,
  Forall proper (top :: l) -> Forall proper (coalesce top l).
Proof.
  induction l as [|x l IH]; intros top F; simpl.
  - exact F.
  - inversion F as [|? ? Pt F']; subst.
    destruct (dt_gt (fst x) (snd top)).
    + constructor; [exact Pt | now apply IH].
    + apply IH. inversion F'; subst. constructor; [|assumption].
      unfold proper in *. simpl.
      pose proof (dt_max_ge_l (snd top) (snd x)). lia.
Qed.

(** A list whose neighbours are strictly apart is left as it is. *)
Lemma coalesce_fixed l : forall top,
  Sorted apart (top :: l) -> coalesce top l = top :: l.
Proof.
  induction l as [|x l IH]; intros top S; simpl; [reflexivity|].
  inversion S as [|? ? S' H]; subst. inversion H as [|? ? A]; subst.
  unfold apart in A. apply dt_gt_spec in A. rewrite A.
  f_equal. now apply IH.
Qed.

Lemma merge_apart l : Sorted apart (merge l).
Proof.
  destruct l; [constructor | rewrite merge_cons; apply coalesce_apart].
Qed.

Lemma merge_sorted l :
  StronglySorted start_le l -> StronglySorted start_le (merge l).
Proof.
  destruct l; [constructor | rewrite merge_cons; apply coalesce_sorted].
Qed.

Lemma merge_proper l : Forall proper l -> Forall proper (merge l).
Proof.
  destruct l; [constructor | rewrite merge_cons; apply coalesce_proper].
Qed.

Lemma merge_fixed l : Sorted apart l -> merge l = l.
Proof.
  destruct l; [reflexivity | rewrite merge_cons; apply coalesce_fixed].
Qed.

(** With proper intervals, neighbours apart means all pairs apart. *)
Lemma apart_all_pairs l :
  Sorted apart l -> Forall proper l -> StronglySorted apart l.
Proof.
  induction l as [|a l IH]; intros S P; [constructor|].
  inversion S as [|? ? S' H]; subst. inversion P as [|? ? Pa P']; subst.
  specialize (IH S' P'). constructor; [exact IH|].
  destruct l as [|b l]; [constructor|].
  inversion H as [|? ? Aab]; subst.
  inversion IH as [|? ? _ Fb]; subst. inversion P' as [|? ? Pb _]; subst.
  constructor; [exact Aab|].
  eapply Forall_impl; [|exact Fb].
  unfold apart, proper in *. intros; lia.
Qed.

Lemma sorted_nth {A} (R : A -> A -> Prop) l :
  Sorted R l ->
  forall i a b, nth_error l i = Some a -> nth_error l (S i) = Some b -> R a b.
Proof.
  induction 1 as [|x l S IH H]; intros i a b Ha Hb.
  - destruct i; discriminate.
  - destruct i as [|i].
    + simpl in Ha, Hb. injection Ha as <-.
      destruct l; [discriminate|]. simpl in Hb. injection Hb as <-.
      now inversion H.
    + simpl in Ha. apply (IH i a b Ha). exact Hb.
Qed.

Lemma strongly_sorted_nth {A} (R : A -> A -> Prop) l :
  StronglySorted R l ->
  forall i j a b, (i < j)%nat ->
    nth_error l i = Some a -> nth_error l j = Some b -> R a b.
Proof.
  induction 1 as [|x l S IH F]; intros i j a b L Ha Hb.
  - destruct i; discriminate.
  - destruct j as [|j]; [lia|]. simpl in Hb.
    destruct i as [|i].
    + simpl in Ha. injection Ha as <-.
      rewrite Forall_forall in F. apply F. eapply nth_error_In. exact Hb.
    + simpl in Ha. apply (IH i j a b); [lia | assumption | assumption].
Qed.

(** C2.  For every finite list of intervals that each begin before they
    end, the sort-and-merge step of the fetcher yields a list that is in
    ascending order of start, in which each interval is over strictly
    before its successor begins (no overlap, no touching); hence any two
    output intervals are strictly apart, and each still begins before it
    ends. *)
Theorem merge_output_contract (busy : list interval) :
  Forall proper busy ->
  let out := sort_and_merge busy in
  (forall i j a b, (i < j)%nat ->
     nth_error out i = Some a -> nth_error out j = Some b ->
     instant (fst a) < instant (fst b))
  /\ (forall i a b,
        nth_error out i = Some a -> nth_error out (S i) = Some b ->
        instant (snd a) < instant (fst b))
  /\ (forall i j a b, (i < j)%nat ->
        nth_error out i = Some a -> nth_error out j = Some b ->
        instant (snd a) < instant (fst b))
  /\ Forall proper out.
Proof.
  intros P out.
  assert (Pout : Forall proper out).
  { apply merge_proper. eapply Permutation_Forall; [apply sort_by_start_perm | exact P]. }
  assert (A : Sorted apart out) by apply merge_apart.
  assert (AA : StronglySorted apart out) by now apply apart_all_pairs.
  repeat split.
  - intros i j a b L Ha Hb.
    pose proof (strongly_sorted_nth _ _ AA i j a b L Ha Hb) as Hab.
    rewrite Forall_forall in Pout.
    pose proof (Pout a (nth_error_In _ _ Ha)) as Pa.
    unfold apart, proper in *. lia.
  - intros i a b Ha Hb. exact (sorted_nth _ _ A i a b Ha Hb).
  - intros i j a b L Ha Hb. exact (strongly_sorted_nth _ _ AA i j a b L Ha Hb).
  - exact Pout.
Qed.

(** Scenario D: 09:00-10:00 and 09:30-10:30 become 09:00-10:30. *)
Example merge_scenario_D :
  sort_and_merge [Samples.busy_at Samples.cet Samples.wednesday 9 30 10 30;
                  Samples.busy_at Samples.cet Samples.wednesday 9 0 10 0]
  = [Samples.busy_at Samples.cet Samples.wednesday 9 0 10 30].
Proof. reflexivity. Qed.

(** Intervals that only touch are merged as well. *)
Example merge_touching :
  sort_and_merge [Samples.busy_at Samples.cet Samples.wednesday 10 0 11 0;
                  Samples.busy_at Samples.cet Samples.wednesday 9 0 10 0]
  = [Samples.busy_at Samples.cet Samples.wednesday 9 0 11 0].
Proof. reflexivity. Qed.

Lemma merge_output_contract_witness :
  Forall proper Samples.busy_unsorted
  /\ sort_and_merge Samples.busy_unsorted
     = [Samples.busy_at Samples.cet Samples.wednesday 9 0 10 30;
        Samples.busy_at Samples.cet Samples.wednesday 12 0 13 0]
  /\ forall i a b,
       nth_error (sort_and_merge Samples.busy_unsorted) i = Some a ->
       nth_error (sort_and_merge Samples.busy_unsorted) (S i) = Some b ->
       instant (snd a) < instant (fst b).
Proof.
  assert (P : Forall proper Samples.busy_unsorted) by (repeat constructor).
  split; [exact P|]. split; [reflexivity|].
  exact (proj1 (proj2 (merge_output_contract Samples.busy_unsorted P))).
Defined.

(** C8.  The sort-and-merge step is idempotent: run on its own output, it
    returns that output unchanged. *)
Theorem sort_and_merge_idempotent (busy : list interval) :
  sort_and_merge (sort_and_merge busy) = sort_and_merge busy.
Proof.
  unfold sort_and_merge.
  rewrite (sort_by_start_fixed (merge (sort_by_start busy))).
  - apply merge_fixed, merge_apart.
  - apply merge_sorted, sort_by_start_sorted.
Qed.

End Merge.

(* ===================================================================== *)
(** * The slot loop                                                      *)
(* ===================================================================== *)

Section SlotLoop.

Lemma aware_add_ok a delta a' :
  aware_add a delta = Ok a' ->
  a' = mkaware (wall a + delta) (utcoffset a)
  /\ instant a' = instant a + delta.
Proof.
  unfold aware_add. destruct (representable (wall a + delta)); [|discriminate].
  intros [= <-]. split; [reflexivity|]. unfold instant. simpl. lia.
Qed.

Lemma aware_add_halts a delta : aware_add a delta <> OutOfFuel.
Proof. unfold aware_add. destruct representable; discriminate. Qed.

Lemma timedelta_minutes_ok m delta :
  timedelta_minutes m = Ok delta -> delta = m * US_PER_MINUTE.
Proof.
  unfold timedelta_minutes. destruct (_ <=? _); [|discriminate]. now intros [= <-].
Qed.

Lemma is_free_spec busy s e :
  is_free busy s e = true <-> forall b, In b busy -> overlaps s e b = false.
Proof.
  induction busy as [|[b_start b_end] busy IH]; simpl.
  - split; [intros _ b [] | reflexivity].
  - change (dt_lt s b_end && dt_gt e b_start) with (overlaps s e (b_start, b_end)).
    destruct (overlaps s e (b_start, b_end)) eqn:E.
    + split; [intros H; discriminate H|]. intros H.
      rewrite (H (b_start, b_end)) in E by now left. discriminate E.
    + rewrite IH. split.
      * intros H b [<-|Hb]; [exact E | now apply H].
      * intros H b Hb. apply H. now right.
Qed.

(** A slot next to a busy interval does not overlap it. *)
Lemma touches_no_overlap s e b : touches s e b -> overlaps s e b = false.
Proof.
  unfold touches, overlaps, dt_lt, dt_gt. intros [H|H]; rewrite H.
  - rewrite Z.ltb_irrefl. apply andb_false_r.
  - rewrite Z.ltb_irrefl. reflexivity.
Qed.

Lemma candidate_0 delta cur : candidate delta cur 0 = cur.
Proof. destruct cur. unfold candidate. simpl. f_equal. lia. Qed.

Lemma candidate_S delta cur k :
  candidate delta cur (S k)
  = candidate delta (mkaware (wall cur + delta) (utcoffset cur)) k.
Proof. unfold candidate. simpl wall. simpl utcoffset. f_equal. lia. Qed.

Lemma candidate_instant delta cur k :
  instant (candidate delta cur k) = instant cur + Z.of_nat k * delta.
Proof. unfold candidate, instant. simpl. lia. Qed.

Variables (busy : list interval) (end_ : aware) (delta : Z).

(** One round of the loop: the three evaluations of [cur + delta] agree. *)
Lemma slots_loop_round fuel cur acc :
  slots_loop (S fuel) busy end_ delta cur acc =
  match aware_add cur delta with
  | Ok nxt =>
      if dt_le nxt end_ then
        slots_loop fuel busy end_ delta nxt
          (if is_free busy cur nxt then acc ++ [cur] else acc)
      else Ok acc
  | Raise e => Raise e
  | OutOfFuel => OutOfFuel
  end.
Proof.
  simpl. destruct (aware_add cur delta); reflexivity.
Qed.

(** Once the loop has an answer, more unrollings give the same answer. *)
Lemma slots_loop_more_fuel fuel : forall cur acc fuel',
  slots_loop fuel busy end_ delta cur acc <> OutOfFuel ->
  (fuel <= fuel')%nat ->
  slots_loop fuel' busy end_ delta cur acc
  = slots_loop fuel busy end_ delta cur acc.
Proof.
  induction fuel as [|fuel IH]; intros cur acc fuel' H L.
  - now contradiction H.
  - destruct fuel' as [|fuel']; [lia|].
    rewrite !slots_loop_round in *.
    destruct (aware_add cur delta) as [nxt| |]; try reflexivity.
    destruct (dt_le nxt end_); [|reflexivity].
    apply IH; [exact H | lia].
Qed.

Hypothesis delta_pos : 0 < delta.

(** The variant of the loop: the distance from the cursor to the close of
    the window, which each round shortens by [delta]. *)
Lemma slots_loop_halts n : forall cur acc,
  instant end_ - instant cur < (Z.of_nat n + 1) * delta ->
  slots_loop (S n) busy end_ delta cur acc <> OutOfFuel.
Proof.
  induction n as [|n IH]; intros cur acc H; rewrite slots_loop_round;
    destruct (aware_add cur delta) as [nxt| |] eqn:E; try discriminate;
    try (now apply aware_add_halts in E);
    destruct (dt_le nxt end_) eqn:L; try discriminate;
    apply aware_add_ok in E as [_ E]; apply dt_le_spec in L.
  - exfalso. lia.
  - apply IH. lia.
Qed.

Lemma enough_fuel_halts start acc fuel :
  (enough_fuel start end_ delta <= fuel)%nat ->
  slots_loop fuel busy end_ delta start acc <> OutOfFuel.
Proof.
  intros L.
  assert (H : slots_loop (enough_fuel start end_ delta) busy end_ delta start acc
              <> OutOfFuel).
  { unfold enough_fuel. apply slots_loop_halts.
    set (d := instant end_ - instant start).
    pose proof (Z.mul_succ_div_gt d delta delta_pos) as G.
    destruct (Z.le_gt_cases 0 (d / delta)) as [Hq|Hq].
    - rewrite Z2Nat.id by exact Hq. lia.
    - replace (Z.to_nat (d / delta)) with 0%nat by lia. nia. }
  rewrite (slots_loop_more_fuel _ _ _ _ H L). exact H.
Qed.

(** What the loop appends: slots that start at or after the cursor, end at
    or before the close of the window, and are free. *)
Lemma slots_loop_sound fuel : forall cur acc out,
  slots_loop fuel busy end_ delta cur acc = Ok out ->
  exists new,
    out = acc ++ new
    /\ forall s, In s new ->
         exists e, aware_add s delta = Ok e
                   /\ instant cur <= instant s
                   /\ instant e <= instant end_
                   /\ is_free busy s e = true.
Proof.
  induction fuel as [|fuel IH]; intros cur acc out H; [discriminate|].
  rewrite slots_loop_round in H.
  destruct (aware_add cur delta) as [nxt| |] eqn:E; try discriminate.
  destruct (dt_le nxt end_) eqn:L.
  - destruct (IH _ _ _ H) as (new & -> & Hnew).
    pose proof (aware_add_ok _ _ _ E) as [_ I].
    assert (Hnew' : forall s, In s new ->
              exists e, aware_add s delta = Ok e /\ instant cur <= instant s
                        /\ instant e <= instant end_ /\ is_free busy s e = true).
    { intros s Hs. destruct (Hnew s Hs) as (e & A & B & C & D).
      exists e. repeat split; try assumption. lia. }
    destruct (is_free busy cur nxt) eqn:F.
    + exists (cur :: new). rewrite <- app_assoc. split; [reflexivity|].
      intros s [<-|Hs]; [|now apply Hnew'].
      exists nxt. apply dt_le_spec in L. repeat split; try assumption. lia.
    + exists new. split; [reflexivity | exact Hnew'].
  - injection H as <-. exists []. split; [now rewrite app_nil_r | intros s []].
Qed.

(** The emitted slots, when the loop starts with none. *)
Lemma slots_loop_emits fuel start out :
  slots_loop fuel busy end_ delta start [] = Ok out ->
  forall s, In s out ->
  exists e,
    aware_add s delta = Ok e
    /\ instant e = instant s + delta
    /\ instant start <= instant s
    /\ instant e <= instant end_
    /\ forall b, In b busy -> overlaps s e b = false.
Proof.
  intros L s Hs.
  destruct (slots_loop_sound _ _ _ _ L) as (new & -> & Hnew).
  destruct (Hnew s Hs) as (e & A & B & C & F).
  exists e. pose proof (aware_add_ok _ _ _ A) as [_ I].
  repeat split; try assumption. now apply is_free_spec.
Qed.

(** What the loop does not leave out: every cursor position whose slot
    fits in the window and is free. *)
Lemma slots_loop_complete fuel : forall cur acc out k,
  slots_loop fuel busy end_ delta cur acc = Ok out ->
  instant (candidate delta cur (S k)) <= instant end_ ->
  is_free busy (candidate delta cur k) (candidate delta cur (S k)) = true ->
  In (candidate delta cur k) out.
Proof.
  induction fuel as [|fuel IH]; intros cur acc out k H W F; [discriminate|].
  rewrite slots_loop_round in H.
  destruct (aware_add cur delta) as [nxt| |] eqn:E; try discriminate.
  pose proof (aware_add_ok _ _ _ E) as [N I].
  rewrite candidate_instant in W.
  assert (L : dt_le nxt end_ = true) by (apply dt_le_spec; nia).
  rewrite L in H.
  destruct k as [|k].
  - rewrite candidate_S, <- N, !candidate_0 in F. rewrite F in H.
    rewrite candidate_0.
    destruct (slots_loop_sound _ _ _ _ H) as (new & -> & _).
    rewrite in_app_iff. left. rewrite in_app_iff. right. now left.
  - rewrite (candidate_S _ _ (S k)), <- N in F.
    rewrite (candidate_S _ _ k), <- N in F |- *.
    apply (IH _ _ _ _ H); [|exact F].
    rewrite candidate_instant. nia.
Qed.

End SlotLoop.

(** With a zero slot length the cursor does not move. *)
Lemma slots_loop_zero_spins busy end_ fuel : forall cur acc,
  representable (wall cur) = true ->
  instant cur <= instant end_ ->
  slots_loop fuel busy end_ 0 cur acc = OutOfFuel.
Proof.
  induction fuel as [|fuel IH]; intros cur acc R L; [reflexivity|].
  rewrite slots_loop_round. unfold aware_add.
  rewrite Z.add_0_r, R.
  replace (mkaware (wall cur) (utcoffset cur)) with cur by now destruct cur.
  rewrite (proj2 (dt_le_spec _ _) L). now apply IH.
Qed.

(* ===================================================================== *)
(** * The busy-interval fetcher                                          *)
(* ===================================================================== *)

Section Fetcher.

Open Scope string_scope.

Variables (w : World) (date_local : date) (tz : tzinfo).

(** ** The ways the fetcher gives up *)

Lemma fetch_unconfigured :
  ical_url w = "" ->
  fetch_busy_intervals_ical w date_local tz = ([], Ok []).
Proof.
  unfold fetch_busy_intervals_ical. fold (ical_url w). intros ->. reflexivity.
Qed.

Lemma fetch_import_error e :
  ical_url w <> "" -> ics_import w = Raises e ->
  fetch_busy_intervals_ical w date_local tz = ([IoImport "ics"], Ok []).
Proof.
  unfold fetch_busy_intervals_ical. fold (ical_url w). intros U I.
  destruct (ical_url w); [contradiction|]. rewrite I. reflexivity.
Qed.

Lemma fetch_transport_error e :
  ical_url w <> "" -> ics_import w = Returns tt ->
  requests_get w (ical_url w) = Raises e ->
  fetch_busy_intervals_ical w date_local tz
  = ([IoImport "ics"; IoHttpGet (ical_url w) 10], Ok []).
Proof.
  unfold fetch_busy_intervals_ical. fold (ical_url w). intros U I G.
  destruct (ical_url w) eqn:E; [contradiction|]. rewrite I, G. reflexivity.
Qed.

Lemma fetch_status_error resp e :
  ical_url w <> "" -> ics_import w = Returns tt ->
  requests_get w (ical_url w) = Returns resp -> status_error resp = Some e ->
  fetch_busy_intervals_ical w date_local tz
  = ([IoImport "ics"; IoHttpGet (ical_url w) 10], Ok []).
Proof.
  unfold fetch_busy_intervals_ical. fold (ical_url w). intros U I G S.
  destruct (ical_url w) eqn:E; [contradiction|]. rewrite I, G. simpl.
  unfold raise_for_status. rewrite S. reflexivity.
Qed.

Lemma fetch_parse_error resp e :
  ical_url w <> "" -> ics_import w = Returns tt ->
  requests_get w (ical_url w) = Returns resp -> status_error resp = None ->
  ics_Calendar w (text resp) = Raises e ->
  fetch_busy_intervals_ical w date_local tz
  = ([IoImport "ics"; IoHttpGet (ical_url w) 10], Ok []).
Proof.
  unfold fetch_busy_intervals_ical. fold (ical_url w). intros U I G S C.
  destruct (ical_url w) eqn:E; [contradiction|]. rewrite I, G. simpl.
  unfold raise_for_status. rewrite S. simpl. rewrite C. reflexivity.
Qed.

(** ** The feed was served and parsed *)

Lemma fetch_parsed resp events :
  ical_url w <> "" -> ics_import w = Returns tt ->
  requests_get w (ical_url w) = Returns resp -> status_error resp = None ->
  ics_Calendar w (text resp) = Returns events ->
  fetch_busy_intervals_ical w date_local tz
  = ([IoImport "ics"; IoHttpGet (ical_url w) 10],
     let start_of_day := localize tz (midnight date_local) in
     end_of_day <~ aware_add start_of_day US_PER_DAY;;
     busy <~ collect_busy tz start_of_day end_of_day events [];;
     Ok (sort_and_merge busy)).
Proof.
  unfold fetch_busy_intervals_ical. fold (ical_url w). intros U I G S C.
  destruct (ical_url w) eqn:E; [contradiction|]. rewrite I, G. simpl.
  unfold raise_for_status. rewrite S. simpl. rewrite C. simpl.
  destruct (aware_add _ _) as [end_of_day| |]; simpl; try reflexivity.
  destruct (collect_busy _ _ _ _ _); reflexivity.
Qed.

(** An event whose fields cannot be read is passed over: the loop gives
    what it gives without that event. *)
Lemma collect_busy_skips start_of_day end_of_day bad e before :
  event_fields bad = Raise e ->
  forall after busy,
  collect_busy tz start_of_day end_of_day (before ++ bad :: after) busy
  = collect_busy tz start_of_day end_of_day (before ++ after) busy.
Proof.
  intros B after. induction before as [|ev before IH]; intros busy; simpl.
  - now rewrite B.
  - destruct (event_fields ev) as [[ev_start ev_end]| |]; try reflexivity;
      [|apply IH].
    destruct (normalize tz ev_start); simpl; try reflexivity.
    destruct (normalize tz ev_end); simpl; try reflexivity.
    apply IH.
Qed.

(** ** No unbounded loop in the fetcher *)

Lemma event_fields_halts ev : event_fields ev <> OutOfFuel.
Proof.
  unfold event_fields.
  destruct (begin_datetime ev) as [b|]; simpl; [|discriminate].
  destruct (end_datetime ev) as [[d|]|]; simpl; try discriminate.
  destruct b as [x|a]; simpl.
  - destruct (representable _); discriminate.
  - unfold aware_add. destruct (representable _); discriminate.
Qed.

Lemma normalize_halts d : normalize tz d <> OutOfFuel.
Proof.
  destruct d as [x|a]; simpl; [discriminate|]. unfold astimezone.
  destruct (representable _); [|discriminate].
  destruct (representable _); discriminate.
Qed.

Lemma collect_busy_halts start_of_day end_of_day events : forall busy,
  collect_busy tz start_of_day end_of_day events busy <> OutOfFuel.
Proof.
  induction events as [|ev events IH]; intros busy; simpl; [discriminate|].
  destruct (event_fields ev) as [[ev_start ev_end]| |] eqn:F.
  - destruct (normalize tz ev_start) eqn:N1; simpl; try discriminate;
      [|now apply normalize_halts in N1].
    destruct (normalize tz ev_end) eqn:N2; simpl; try discriminate;
      [|now apply normalize_halts in N2].
    apply IH.
  - apply IH.
  - now apply event_fields_halts in F.
Qed.

Lemma fetch_halts : snd (fetch_busy_intervals_ical w date_local tz) <> OutOfFuel.
Proof.
  unfold fetch_busy_intervals_ical. fold (ical_url w).
  destruct (str_truthy (ical_url w)); simpl; [|discriminate].
  destruct (ics_import w); simpl; [|discriminate].
  destruct (requests_get w (ical_url w)) as [resp|]; simpl; [|discriminate].
  unfold raise_for_status.
  destruct (status_error resp); simpl; [discriminate|].
  destruct (ics_Calendar w (text resp)) as [events|]; simpl; [|discriminate].
  destruct (aware_add _ _) as [end_of_day| |] eqn:A; simpl; try discriminate;
    [|now apply aware_add_halts in A].
  destruct (collect_busy _ _ _ _ _) eqn:C; simpl; try discriminate.
  now apply collect_busy_halts in C.
Qed.

(** ** When the fetcher returns *)

(** Every interval the loop keeps begins before it ends (line 140). *)
Lemma collect_busy_proper start_of_day end_of_day events : forall busy out,
  Forall proper busy ->
  collect_busy tz start_of_day end_of_day events busy = Ok out ->
  Forall proper out.
Proof.
  induction events as [|ev events IH]; intros busy out P C; simpl in C.
  - now injection C as <-.
  - destruct (event_fields ev) as [[ev_start ev_end]| |]; try discriminate;
      [|now apply (IH busy)].
    destruct (normalize tz ev_start) as [a| |]; simpl in C; try discriminate.
    destruct (normalize tz ev_end) as [b| |]; simpl in C; try discriminate.
    refine (IH _ _ _ C).
    destruct (dt_lt (dt_max a start_of_day) (dt_min b end_of_day)) eqn:L;
      [|exact P].
    apply Forall_app. split; [exact P|]. constructor; [|constructor].
    unfold proper. simpl. now apply dt_lt_spec.
Qed.

(** Events that can all be brought to the local zone are all processed. *)
Lemma collect_busy_returns start_of_day end_of_day events : forall busy,
  Forall (normalizes tz) events ->
  exists out, collect_busy tz start_of_day end_of_day events busy = Ok out.
Proof.
  induction events as [|ev events IH]; intros busy N; simpl.
  - now exists busy.
  - inversion N as [|? ? Nev N']; subst.
    destruct (event_fields ev) as [[ev_start ev_end]| |] eqn:F.
    + destruct (Nev _ _ F) as [[a ->] [b ->]]. simpl. now apply IH.
    + now apply IH.
    + now apply event_fields_halts in F.
Qed.

(** The fetcher returns whenever the day after [date_local] is on the
    calendar and the events of the feed can be brought to the local zone;
    what it returns then meets the contract of the merge step. *)
Lemma fetch_returns :
  representable (midnight date_local + US_PER_DAY) = true ->
  (forall resp events,
     requests_get w (ical_url w) = Returns resp ->
     ics_Calendar w (text resp) = Returns events ->
     Forall (normalizes tz) events) ->
  exists trace busy,
    fetch_busy_intervals_ical w date_local tz = (trace, Ok busy)
    /\ Forall proper busy
    /\ Sorted apart busy
    /\ StronglySorted start_le busy.
Proof.
  intros R N.
  assert (Nil : forall t : list io, exists trace busy,
            (t, @Ok (list interval) []) = (trace, Ok busy)
            /\ Forall proper busy /\ Sorted apart busy
            /\ StronglySorted start_le busy).
  { intros t. exists t, []. repeat split; constructor. }
  destruct (string_dec (ical_url w) "") as [U|U];
    [rewrite (fetch_unconfigured U); apply Nil|].
  destruct (ics_import w) as [[]|e] eqn:I;
    [|rewrite (fetch_import_error e U I); apply Nil].
  destruct (requests_get w (ical_url w)) as [resp|e] eqn:G;
    [|rewrite (fetch_transport_error e U I G); apply Nil].
  destruct (status_error resp) as [e|] eqn:S;
    [rewrite (fetch_status_error resp e U I G S); apply Nil|].
  destruct (ics_Calendar w (text resp)) as [events|e] eqn:C;
    [|rewrite (fetch_parse_error resp e U I G S C); apply Nil].
  rewrite (fetch_parsed resp events U I G S C). cbv zeta.
  unfold aware_add at 1. unfold localize at 1. simpl wall. rewrite R.
  cbn [obind].
  destruct (collect_busy_returns
              (localize tz (midnight date_local))
              (mkaware (midnight date_local + US_PER_DAY)
                 (utcoffset (localize tz (midnight date_local))))
              events [] (N resp events eq_refl C)) as [busy B].
  rewrite B. cbn [obind].
  eexists _, _. split; [reflexivity|].
  pose proof (collect_busy_proper _ _ _ _ _ (Forall_nil _) B) as P.
  repeat split.
  - apply merge_proper. eapply Permutation_Forall; [apply sort_by_start_perm | exact P].
  - apply merge_apart.
  - apply merge_sorted, sort_by_start_sorted.
Qed.

End Fetcher.

(* ===================================================================== *)
(** * The pipeline                                                       *)
(* ===================================================================== *)

Section Pipeline.

Open Scope string_scope.

Lemma strptime_halts s : strptime s <> OutOfFuel.
Proof.
  unfold strptime.
  repeat match goal with
         | |- context [match ?x with _ => _ end] => destruct x
         end; discriminate.
Qed.

Lemma bind_pure_ok {A B} (a : A) (f : A -> M B) : bind (pure_ (Ok a)) f = f a.
Proof. unfold bind, pure_. now destruct (f a). Qed.

Variables (fuel : nat) (w : World) (date_str : string) (minutes : Z).

(** The run on a day without business hours. *)
Lemma generate_slots_closed tz d :
  pytz_timezone w (tz_name w) = Some tz ->
  strptime date_str = Ok d ->
  get_business_hours d = None ->
  generate_slots fuel w date_str minutes
  = ([], Ok (mkAvailabilityResponse date_str (tz_name w) minutes [] (url_flag w))).
Proof.
  intros T P H. unfold generate_slots. fold (tz_name w) (url_flag w).
  rewrite T, P, bind_pure_ok, H. reflexivity.
Qed.

(** The run on a day with business hours. *)
Lemma generate_slots_open tz d open_t close_t :
  pytz_timezone w (tz_name w) = Some tz ->
  strptime date_str = Ok d ->
  get_business_hours d = Some (open_t, close_t) ->
  generate_slots fuel w date_str minutes
  = (busy <- fetch_busy_intervals_ical w d tz;;
     delta <- pure_ (timedelta_minutes minutes);;
     slots <- pure_ (slots_loop fuel busy (localize tz (combine d close_t))
                       delta (localize tz (combine d open_t)) []);;
     ret (mkAvailabilityResponse date_str (tz_name w) minutes slots (url_flag w))).
Proof.
  intros T P H. unfold generate_slots. fold (tz_name w) (url_flag w).
  rewrite T, P, bind_pure_ok, H. reflexivity.
Qed.

(** What a run that returns went through. *)
Lemma generate_slots_returns trace resp :
  generate_slots fuel w date_str minutes = (trace, Ok resp) ->
  exists tz d,
    pytz_timezone w (tz_name w) = Some tz
    /\ strptime date_str = Ok d
    /\ date_ resp = date_str /\ timezone resp = tz_name w
    /\ slot_minutes resp = minutes /\ configured resp = url_flag w
    /\ ((get_business_hours d = None /\ slots resp = [] /\ trace = [])
        \/ exists open_t close_t busy delta,
             get_business_hours d = Some (open_t, close_t)
             /\ fetch_busy_intervals_ical w d tz = (trace, Ok busy)
             /\ timedelta_minutes minutes = Ok delta
             /\ slots_loop fuel busy (localize tz (combine d close_t)) delta
                  (localize tz (combine d open_t)) [] = Ok (slots resp)).
Proof.
  intros G.
  destruct (pytz_timezone w (tz_name w)) as [tz|] eqn:T.
  2:{ unfold generate_slots in G. fold (tz_name w) in G. rewrite T in G. discriminate. }
  destruct (strptime date_str) as [d| |] eqn:P.
  2,3: unfold generate_slots in G; fold (tz_name w) in G; rewrite T, P in G;
       discriminate.
  exists tz, d. do 2 (split; [reflexivity|]).
  destruct (get_business_hours d) as [[open_t close_t]|] eqn:H.
  - rewrite (generate_slots_open tz d open_t close_t T P H) in G.
    destruct (fetch_busy_intervals_ical w d tz) as [t [busy| |]]; try discriminate.
    simpl in G.
    destruct (timedelta_minutes minutes) as [delta| |]; try discriminate.
    simpl in G.
    destruct (slots_loop _ _ _ _ _ _) as [out| |] eqn:SL; try discriminate.
    simpl in G. rewrite !app_nil_r in G. injection G as <- <-. simpl.
    repeat split. right. exists open_t, close_t, busy, delta.
    repeat split. exact SL.
  - rewrite (generate_slots_closed tz d T P H) in G. injection G as <- <-.
    simpl. repeat split. now left.
Qed.

(** The flag of the response is read off the environment and nothing
    else. *)
Lemma configured_from_environment trace resp :
  generate_slots fuel w date_str minutes = (trace, Ok resp) ->
  configured resp = opt_str_truthy (environ w "GOOGLE_CALENDAR_ICAL_URL").
Proof.
  intros G. destruct (generate_slots_returns _ _ G) as (tz & d & H).
  apply H.
Qed.

End Pipeline.

(** With a positive slot length every run ends, given enough unrollings. *)
Lemma generate_slots_halts w date_str minutes :
  0 < minutes ->
  exists fuel0, forall fuel, (fuel0 <= fuel)%nat ->
    snd (generate_slots fuel w date_str minutes) <> OutOfFuel.
Proof.
  intros Hm.
  destruct (pytz_timezone w (getenv_default w "BUSINESS_TZ" "Europe/Amsterdam"))
    as [tz|] eqn:T.
  2:{ exists 0%nat. intros fuel _. unfold generate_slots. rewrite T. discriminate. }
  destruct (strptime date_str) as [d| |] eqn:P.
  2,3: exists 0%nat; intros fuel _; unfold generate_slots; rewrite T, P; simpl;
       try discriminate; now apply strptime_halts in P.
  destruct (get_business_hours d) as [[open_t close_t]|] eqn:H.
  2:{ exists 0%nat. intros fuel _.
      rewrite (generate_slots_closed fuel w date_str minutes tz d T P H).
      discriminate. }
  pose proof (fetch_halts w d tz) as FH.
  destruct (fetch_busy_intervals_ical w d tz) as [t [busy|e|]] eqn:F.
  2,3: exists 0%nat; intros fuel _;
       rewrite (generate_slots_open fuel w date_str minutes tz d _ _ T P H), F;
       simpl; try discriminate; now contradiction FH.
  destruct (timedelta_minutes minutes) as [delta| |] eqn:D.
  2,3: exists 0%nat; intros fuel _;
       rewrite (generate_slots_open fuel w date_str minutes tz d _ _ T P H), F;
       simpl; rewrite D; simpl; try discriminate;
       unfold timedelta_minutes in D; destruct (_ <=? _); discriminate.
  exists (enough_fuel (localize tz (combine d open_t))
            (localize tz (combine d close_t)) delta).
  intros fuel L.
  rewrite (generate_slots_open fuel w date_str minutes tz d _ _ T P H), F.
  simpl. rewrite D. simpl.
  apply timedelta_minutes_ok in D.
  assert (Hd : 0 < delta) by (subst delta; unfold US_PER_MINUTE, US_PER_SECOND; lia).
  pose proof (enough_fuel_halts busy _ _ Hd _ [] _ L) as EH.
  destruct (slots_loop _ _ _ _ _ _); simpl; try discriminate. now contradiction EH.
Qed.

(* ===================================================================== *)
(** * The properties of the specification                                *)
(* ===================================================================== *)

Section Claims.

Open Scope string_scope.

(** ** Slots *)

(** C1.  For every window [[start, end_)], every list of busy intervals and
    every positive slot length, each start [s] the slot loop emits begins a
    slot [[s, e)] with [e = s + delta] that is exactly [minutes] minutes
    long, lies within the window ([start <= s] and [e <= end_]), and for
    which the overlap test [s < b_end and e > b_start] is false for every
    busy interval. *)
Theorem emitted_slots_sound fuel busy start end_ minutes delta out :
  0 < minutes ->
  timedelta_minutes minutes = Ok delta ->
  slots_loop fuel busy end_ delta start [] = Ok out ->
  forall s, In s out ->
  exists e,
    aware_add s delta = Ok e
    /\ instant e - instant s = minutes * US_PER_MINUTE
    /\ instant start <= instant s
    /\ instant e <= instant end_
    /\ forall b_start b_end, In (b_start, b_end) busy ->
         (dt_lt s b_end && dt_gt e b_start) = false.
Proof.
  intros Hm D L s Hs.
  apply timedelta_minutes_ok in D.
  assert (Hd : 0 < delta) by (subst delta; unfold US_PER_MINUTE, US_PER_SECOND; lia).
  destruct (slots_loop_emits busy end_ delta Hd fuel start out L s Hs)
    as (e & A & I & B & C & F).
  exists e. repeat split; try assumption; [lia|].
  intros b_start b_end Hb. exact (F (b_start, b_end) Hb).
Qed.

Lemma emitted_slots_sound_witness :
  0 < 60
  /\ timedelta_minutes 60 = Ok US_PER_HOUR
  /\ slots_loop 5 Samples.busy_C (Samples.sat 14 0) US_PER_HOUR
       (Samples.sat 10 0) []
     = Ok [Samples.sat 11 0; Samples.sat 12 0; Samples.sat 13 0]
  /\ In (Samples.sat 11 0) [Samples.sat 11 0; Samples.sat 12 0; Samples.sat 13 0]
  /\ exists e,
       aware_add (Samples.sat 11 0) US_PER_HOUR = Ok e
       /\ instant e - instant (Samples.sat 11 0) = 60 * US_PER_MINUTE
       /\ instant (Samples.sat 10 0) <= instant (Samples.sat 11 0)
       /\ instant e <= instant (Samples.sat 14 0)
       /\ forall b_start b_end, In (b_start, b_end) Samples.busy_C ->
            (dt_lt (Samples.sat 11 0) b_end && dt_gt e b_start) = false.
Proof.
  assert (H1 : 0 < 60) by reflexivity.
  assert (H2 : timedelta_minutes 60 = Ok US_PER_HOUR) by reflexivity.
  assert (H3 : slots_loop 5 Samples.busy_C (Samples.sat 14 0) US_PER_HOUR
                 (Samples.sat 10 0) []
               = Ok [Samples.sat 11 0; Samples.sat 12 0; Samples.sat 13 0])
    by reflexivity.
  assert (H4 : In (Samples.sat 11 0)
                 [Samples.sat 11 0; Samples.sat 12 0; Samples.sat 13 0])
    by (left; reflexivity).
  repeat (split; [assumption|]).
  exact (emitted_slots_sound 5 Samples.busy_C (Samples.sat 10 0) (Samples.sat 14 0)
           60 US_PER_HOUR _ H1 H2 H3 (Samples.sat 11 0) H4).
Defined.

(** The same, for the slots of a response of [generate_slots]: the window is
    the business window of the day and the busy intervals are those the
    fetcher returned. *)
Lemma generate_slots_sound fuel w date_str minutes trace resp :
  0 < minutes ->
  generate_slots fuel w date_str minutes = (trace, Ok resp) ->
  forall s, In s (slots resp) ->
  exists tz d open_t close_t busy e,
    strptime date_str = Ok d
    /\ get_business_hours d = Some (open_t, close_t)
    /\ fetch_busy_intervals_ical w d tz = (trace, Ok busy)
    /\ aware_add s (minutes * US_PER_MINUTE) = Ok e
    /\ instant e - instant s = minutes * US_PER_MINUTE
    /\ instant (localize tz (combine d open_t)) <= instant s
    /\ instant e <= instant (localize tz (combine d close_t))
    /\ forall b_start b_end, In (b_start, b_end) busy ->
         (dt_lt s b_end && dt_gt e b_start) = false.
Proof.
  intros Hm G s Hs.
  destruct (generate_slots_returns _ _ _ _ _ _ G)
    as (tz & d & _ & P & _ & _ & _ & _ & [(_ & E & _)|R]).
  - rewrite E in Hs. destruct Hs.
  - destruct R as (open_t & close_t & busy & delta & H & F & D & L).
    apply timedelta_minutes_ok in D.
    assert (Hd : 0 < delta)
      by (subst delta; unfold US_PER_MINUTE, US_PER_SECOND; lia).
    destruct (slots_loop_emits busy _ delta Hd fuel _ _ L s Hs)
      as (e & A & I & B & C & Free).
    subst delta.
    exists tz, d, open_t, close_t, busy, e.
    repeat split; try assumption; [lia|].
    intros b_start b_end Hb. exact (Free (b_start, b_end) Hb).
Qed.

(** C5.  The overlap test is strict on both sides.  A slot that fits in the
    window, and that every busy interval either merely touches (the slot
    ends when the interval starts, or starts when the interval ends) or
    does not overlap, is emitted.  On Saturday 2024-01-06, with the single
    busy interval 10:00-11:00 and 30-minute slots, the slots emitted are
    11:00, 11:30, 12:00, 12:30, 13:00 and 13:30, and no others: 10:00 and
    10:30 are left out. *)
Theorem adjacent_slots_emitted :
  (forall fuel busy start end_ delta out k,
     0 < delta ->
     slots_loop fuel busy end_ delta start [] = Ok out ->
     instant (candidate delta start (S k)) <= instant end_ ->
     (forall b, In b busy ->
        touches (candidate delta start k) (candidate delta start (S k)) b
        \/ overlaps (candidate delta start k) (candidate delta start (S k)) b
           = false) ->
     In (candidate delta start k) out)
  /\ (forall fuel, (9 <= fuel)%nat ->
        generate_slots fuel Samples.world_C "2024-01-06" 30
        = ([IoImport "ics"; IoHttpGet Samples.feed_url 10],
           Ok (mkAvailabilityResponse "2024-01-06" "Europe/Amsterdam" 30
                 [Samples.sat 11 0; Samples.sat 11 30; Samples.sat 12 0;
                  Samples.sat 12 30; Samples.sat 13 0; Samples.sat 13 30]
                 true))).
Proof.
  split.
  - intros fuel busy start end_ delta out k Hd L W T.
    apply (slots_loop_complete busy end_ delta Hd fuel start [] out k L W).
    apply is_free_spec. intros b Hb.
    destruct (T b Hb) as [Ht|Hn]; [now apply touches_no_overlap | exact Hn].
  - intros fuel Hf.
    rewrite (generate_slots_open fuel _ _ _ Samples.cet Samples.saturday
               (mktime 10 0) (mktime 14 0)) by reflexivity.
    replace (fetch_busy_intervals_ical _ _ _)
      with ([IoImport "ics"; IoHttpGet Samples.feed_url 10], Ok Samples.busy_C)
      by (vm_compute; reflexivity).
    change (timedelta_minutes 30) with (Ok (30 * US_PER_MINUTE)).
    cbn [bind pure_]. cbv beta iota.
    match goal with
    | |- context [slots_loop fuel ?b ?e ?d ?c ?a] =>
        assert (R : slots_loop 9 b e d c a
                    = Ok [Samples.sat 11 0; Samples.sat 11 30; Samples.sat 12 0;
                          Samples.sat 12 30; Samples.sat 13 0; Samples.sat 13 30])
          by (vm_compute; reflexivity);
        rewrite (slots_loop_more_fuel b e d 9%nat c a fuel)
          by first [exact Hf | rewrite R; discriminate];
        rewrite R
    end.
    reflexivity.
Qed.

Lemma adjacent_slots_emitted_witness :
  0 < US_PER_HOUR
  /\ slots_loop 5 Samples.busy_gap (Samples.sat 14 0) US_PER_HOUR
       (Samples.sat 10 0) []
     = Ok [Samples.sat 11 0; Samples.sat 13 0]
  /\ instant (candidate US_PER_HOUR (Samples.sat 10 0) 2)
     <= instant (Samples.sat 14 0)
  /\ (forall b, In b Samples.busy_gap ->
        touches (candidate US_PER_HOUR (Samples.sat 10 0) 1)
          (candidate US_PER_HOUR (Samples.sat 10 0) 2) b
        \/ overlaps (candidate US_PER_HOUR (Samples.sat 10 0) 1)
             (candidate US_PER_HOUR (Samples.sat 10 0) 2) b = false)
  /\ candidate US_PER_HOUR (Samples.sat 10 0) 1 = Samples.sat 11 0
  /\ In (candidate US_PER_HOUR (Samples.sat 10 0) 1)
       [Samples.sat 11 0; Samples.sat 13 0].
Proof.
  assert (H1 : 0 < US_PER_HOUR) by reflexivity.
  assert (H2 : slots_loop 5 Samples.busy_gap (Samples.sat 14 0) US_PER_HOUR
                 (Samples.sat 10 0) []
               = Ok [Samples.sat 11 0; Samples.sat 13 0]) by reflexivity.
  assert (H3 : instant (candidate US_PER_HOUR (Samples.sat 10 0) 2)
               <= instant (Samples.sat 14 0))
    by (vm_compute; intros C; discriminate C).
  assert (H4 : forall b, In b Samples.busy_gap ->
            touches (candidate US_PER_HOUR (Samples.sat 10 0) 1)
              (candidate US_PER_HOUR (Samples.sat 10 0) 2) b
            \/ overlaps (candidate US_PER_HOUR (Samples.sat 10 0) 1)
                 (candidate US_PER_HOUR (Samples.sat 10 0) 2) b = false).
  { intros b [<-|[<-|[]]]; left; [right | left]; reflexivity. }
  repeat (split; [assumption|]). split; [reflexivity|].
  exact (proj1 adjacent_slots_emitted 5%nat Samples.busy_gap (Samples.sat 10 0)
           (Samples.sat 14 0) US_PER_HOUR _ 1%nat H1 H2 H3 H4).
Defined.

(** C10.  For every window and every positive slot length, each round of
    the slot loop shortens the distance from the cursor to the close of the
    window by exactly the slot length, so the loop ends: [enough_fuel]
    rounds suffice, whatever the busy intervals, and so does every run of
    [generate_slots].  The slot length is checked nowhere: the endpoint
    passes a zero slot length on, and the loop then never ends. *)
Theorem slot_loop_terminates busy start end_ minutes delta :
  0 < minutes ->
  timedelta_minutes minutes = Ok delta ->
  (forall cur next, aware_add cur delta = Ok next ->
     instant end_ - instant next
     = (instant end_ - instant cur) - minutes * US_PER_MINUTE
     /\ instant end_ - instant next < instant end_ - instant cur)
  /\ (forall fuel, (enough_fuel start end_ delta <= fuel)%nat ->
        slots_loop fuel busy end_ delta start [] <> OutOfFuel)
  /\ (forall w date_str, exists fuel0, forall fuel, (fuel0 <= fuel)%nat ->
        snd (generate_slots fuel w date_str minutes) <> OutOfFuel)
  /\ (forall fuel,
        availability fuel Samples.world_plain "2024-01-03" 0
        = Some ([], OutOfFuel)).
Proof.
  intros Hm D. pose proof (timedelta_minutes_ok _ _ D) as E.
  assert (Hd : 0 < delta) by (subst delta; unfold US_PER_MINUTE, US_PER_SECOND; lia).
  repeat split.
  - apply aware_add_ok in H as [_ I]. lia.
  - apply aware_add_ok in H as [_ I]. lia.
  - intros fuel L. now apply enough_fuel_halts.
  - intros w date_str. now apply generate_slots_halts.
  - intros fuel. unfold availability.
    change (date_pattern "2024-01-03") with true. cbv iota. f_equal.
    rewrite (generate_slots_open fuel _ _ _ Samples.cet Samples.wednesday
               (mktime 9 0) (mktime 18 0)) by reflexivity.
    replace (fetch_busy_intervals_ical _ _ _) with (@nil io, @Ok (list interval) [])
      by reflexivity.
    change (timedelta_minutes 0) with (Ok 0).
    cbn [bind pure_]. cbv beta iota.
    rewrite slots_loop_zero_spins; [reflexivity | reflexivity |].
    vm_compute. intros C; discriminate C.
Qed.

Lemma slot_loop_terminates_witness :
  0 < 30
  /\ timedelta_minutes 30 = Ok (30 * US_PER_MINUTE)
  /\ enough_fuel (Samples.sat 10 0) (Samples.sat 14 0) (30 * US_PER_MINUTE) = 9%nat
  /\ slots_loop 9 Samples.busy_C (Samples.sat 14 0) (30 * US_PER_MINUTE)
       (Samples.sat 10 0) [] <> OutOfFuel.
Proof.
  assert (H1 : 0 < 30) by reflexivity.
  assert (H2 : timedelta_minutes 30 = Ok (30 * US_PER_MINUTE)) by reflexivity.
  repeat (split; [assumption || reflexivity|]).
  exact (proj1 (proj2 (slot_loop_terminates Samples.busy_C (Samples.sat 10 0)
                         (Samples.sat 14 0) 30 _ H1 H2))
           9%nat (le_n 9)).
Defined.

(** ** Closed days *)

(** C6.  For every date on which the business is closed, which is every
    Sunday, [generate_slots] returns a response with no slots, and on the
    way it neither imports the calendar package nor sends a request: the
    trace of its run is empty, whatever the feed would have answered. *)
Theorem closed_day_short_circuits fuel w date_str minutes tz d :
  pytz_timezone w (tz_name w) = Some tz ->
  strptime date_str = Ok d ->
  get_business_hours d = None ->
  weekday d = 6
  /\ generate_slots fuel w date_str minutes
     = ([], Ok (mkAvailabilityResponse date_str (tz_name w) minutes []
                  (url_flag w))).
Proof.
  intros T P H. split.
  - now apply closed_iff_sunday.
  - exact (generate_slots_closed fuel w date_str minutes tz d T P H).
Qed.

Lemma closed_day_short_circuits_witness :
  pytz_timezone Samples.world_C (tz_name Samples.world_C) = Some Samples.cet
  /\ strptime "2024-01-07" = Ok Samples.sunday
  /\ get_business_hours Samples.sunday = None
  /\ generate_slots 0 Samples.world_C "2024-01-07" 30
     = ([], Ok (mkAvailabilityResponse "2024-01-07" "Europe/Amsterdam" 30 [] true)).
Proof.
  assert (H1 : pytz_timezone Samples.world_C (tz_name Samples.world_C)
               = Some Samples.cet) by reflexivity.
  assert (H2 : strptime "2024-01-07" = Ok Samples.sunday) by reflexivity.
  assert (H3 : get_business_hours Samples.sunday = None) by reflexivity.
  repeat (split; [assumption|]).
  exact (proj2 (closed_day_short_circuits 0 Samples.world_C "2024-01-07" 30
                  Samples.cet Samples.sunday H1 H2 H3)).
Defined.

(** Every Sunday the string denotes is closed, so the hypothesis on the
    business hours can be read off the weekday. *)
Lemma sunday_short_circuits fuel w date_str minutes tz d :
  pytz_timezone w (tz_name w) = Some tz ->
  strptime date_str = Ok d ->
  weekday d = 6 ->
  generate_slots fuel w date_str minutes
  = ([], Ok (mkAvailabilityResponse date_str (tz_name w) minutes []
               (url_flag w))).
Proof.
  intros T P H. apply closed_iff_sunday in H.
  exact (generate_slots_closed fuel w date_str minutes tz d T P H).
Qed.

(** ** Where the code departs from the specification *)

(** C3 (the runs that raise).  The fetcher gives up with the empty list when
    the URL is missing, the import fails, the request fails, the status is
    an error or the feed does not parse ([fetch_unconfigured] to
    [fetch_parse_error]), and it passes over an event it cannot read
    ([collect_busy_skips]).  Two computations, though, stand outside every
    [try].  The end of the day: for 9999-12-31, with a feed that was served
    and parsed, [start_of_day + timedelta(days=1)] leaves the range of
    [datetime], in every time zone and for every list of events.  The
    conversion of an event to the local zone: on an ordinary day, one event
    that begins at 9999-12-31T23:30Z cannot be brought to CET, whatever
    events come after it.  Either way the [OverflowError] reaches the
    caller. *)
Theorem fetch_raises_out_of_range :
  (forall tz events,
     fetch_busy_intervals_ical (Samples.world_utc events) Samples.last_day tz
     = ([IoImport "ics"; IoHttpGet Samples.feed_url 10], Raise OverflowError))
  /\ (forall events,
        fetch_busy_intervals_ical
          (Samples.world (Some Samples.feed_url) None
             (Samples.far_future_event :: events))
          Samples.wednesday Samples.cet
        = ([IoImport "ics"; IoHttpGet Samples.feed_url 10], Raise OverflowError)).
Proof. split; intros; vm_compute; reflexivity. Qed.

(** The same failure, from the endpoint. *)
Example availability_raises_on_last_day :
  date_pattern "9999-12-31" = true
  /\ get_business_hours Samples.last_day = Some (mktime 9 0, mktime 18 0)
  /\ forall fuel,
       availability fuel (Samples.world_utc []) "9999-12-31" 30
       = Some ([IoImport "ics"; IoHttpGet Samples.feed_url 10],
               Raise OverflowError).
Proof. split; [|split]; try intros fuel; vm_compute; reflexivity. Qed.

(** C4 (the run that reports a blank URL as configured).  With the URL set
    to a single space the fetcher, which strips the value, takes the feed
    for unconfigured and does nothing; the response, which does not strip
    it, says [configured = true], on an open day and on a closed day
    alike. *)
Theorem blank_url_reported_configured :
  ical_url Samples.world_blank = ""
  /\ fetch_busy_intervals_ical Samples.world_blank Samples.wednesday Samples.cet
     = ([], Ok [])
  /\ (exists resp,
        generate_slots 19 Samples.world_blank "2024-01-03" 30 = ([], Ok resp)
        /\ configured resp = true)
  /\ (exists resp,
        generate_slots 19 Samples.world_blank "2024-01-07" 30 = ([], Ok resp)
        /\ configured resp = true).
Proof.
  split; [reflexivity|]. split; [vm_compute; reflexivity|].
  split; eexists; (split; [vm_compute; reflexivity|]); reflexivity.
Qed.

(** Scenario A: a Wednesday without a feed has its 18 slots, and the flag
    is off. *)
Example scenario_A :
  exists resp,
    generate_slots 19 Samples.world_plain "2024-01-03" 30 = ([], Ok resp)
    /\ List.length (slots resp) = 18%nat
    /\ hd_error (slots resp)
       = Some (localize Samples.cet (Samples.at_ Samples.wednesday 9 0))
    /\ last (slots resp) (mkaware 0 0)
       = localize Samples.cet (Samples.at_ Samples.wednesday 17 30)
    /\ configured resp = false.
Proof. eexists. split; [vm_compute; reflexivity|]. repeat split. Qed.

(** C9 (the runs that raise).  The pattern of the endpoint lets through
    strings that are not dates: on "2023-02-30" the parser raises
    [ValueError], outside every [try], for every slot length.  A slot
    length too long for the calendar raises [OverflowError] in the test of
    the loop. *)
Theorem impossible_date_escapes :
  date_pattern "2023-02-30" = true
  /\ (forall fuel minutes,
        availability fuel Samples.world_plain "2023-02-30" minutes
        = Some ([], Raise ValueError))
  /\ (forall fuel,
        availability (S fuel) Samples.world_plain "2024-01-03" 10000000000
        = Some ([], Raise OverflowError)).
Proof. split; [|split]; intros; vm_compute; reflexivity. Qed.

End Claims.
(* ===================================================================== *)
(** * The slot loop, exactly                                             *)
(* ===================================================================== *)

Section SlotLoopExact.

Variables (busy : list interval) (end_ : aware) (delta : Z).
Hypothesis delta_pos : 0 < delta.

Lemma rounds_stop cur :
  instant end_ < instant cur + delta -> rounds cur end_ delta = 0%nat.
Proof.
  intros H. unfold rounds.
  assert ((instant end_ - instant cur) / delta < 1)
    by (apply Z.div_lt_upper_bound; lia).
  lia.
Qed.

Lemma rounds_step cur nxt :
  instant nxt = instant cur + delta -> instant nxt <= instant end_ ->
  rounds cur end_ delta = S (rounds nxt end_ delta).
Proof.
  intros I L. unfold rounds.
  replace (instant end_ - instant cur)
    with ((instant end_ - instant nxt) + 1 * delta) by lia.
  rewrite Z.div_add by lia.
  assert (0 <= (instant end_ - instant nxt) / delta) by (apply Z.div_pos; lia).
  lia.
Qed.

Lemma candidates_S cur n :
  candidates delta cur (S n)
  = cur :: candidates delta (mkaware (wall cur + delta) (utcoffset cur)) n.
Proof.
  unfold candidates. simpl. rewrite candidate_0. f_equal.
  rewrite <- seq_shift, map_map. apply map_ext. intros k. apply candidate_S.
Qed.

(** The loop appends the free ones among the cursor positions that fit,
    in the order of the positions. *)
Lemma slots_loop_filter fuel : forall cur acc out,
  slots_loop fuel busy end_ delta cur acc = Ok out ->
  out = acc ++ filter (free_slot busy delta)
                 (candidates delta cur (rounds cur end_ delta)).
Proof.
  induction fuel as [|fuel IH]; intros cur acc out H; [discriminate|].
  rewrite slots_loop_round in H.
  destruct (aware_add cur delta) as [nxt| |] eqn:E; try discriminate.
  pose proof (aware_add_ok _ _ _ E) as [N I].
  destruct (dt_le nxt end_) eqn:L.
  - apply dt_le_spec in L.
    rewrite (rounds_step cur nxt I L), candidates_S, <- N. simpl.
    unfold free_slot at 1. rewrite <- N.
    rewrite (IH _ _ _ H).
    destruct (is_free busy cur nxt); [now rewrite <- app_assoc | reflexivity].
  - injection H as <-.
    assert (instant end_ < instant nxt).
    { unfold dt_le in L. apply Z.leb_gt in L. exact L. }
    rewrite rounds_stop by lia. simpl. now rewrite app_nil_r.
Qed.

Lemma candidates_before cur n : StronglySorted before (candidates delta cur n).
Proof.
  revert cur. induction n as [|n IH]; intros cur.
  - constructor.
  - rewrite candidates_S. constructor; [apply IH|].
    apply Forall_forall. intros s Hs. unfold candidates in Hs.
    apply in_map_iff in Hs as (k & <- & _).
    unfold before. rewrite candidate_instant. unfold instant at 1 2. simpl. nia.
Qed.

Lemma filter_strongly_sorted {A} (R : A -> A -> Prop) f l :
  StronglySorted R l -> StronglySorted R (filter f l).
Proof.
  induction 1 as [|x l S IH F]; simpl; [constructor|].
  destruct (f x); [|exact IH].
  constructor; [exact IH|].
  rewrite Forall_forall in *. intros y Hy. apply F.
  apply filter_In in Hy. tauto.
Qed.

End SlotLoopExact.

(* ===================================================================== *)
(** * Further properties of the slot enumerator                          *)
(* ===================================================================== *)

Section SlotsMore.

Lemma before_no_dup l : StronglySorted before l -> NoDup l.
Proof.
  induction 1 as [|x l S IH F]; constructor; [|exact IH].
  intros Hx. rewrite Forall_forall in F. specialize (F x Hx).
  unfold before in F. lia.
Qed.

Lemma is_free_cons b l s e :
  is_free (b :: l) s e = negb (overlaps s e b) && is_free l s e.
Proof.
  destruct b as [b_start b_end]. simpl. unfold overlaps. simpl.
  now destruct (dt_lt s b_end && dt_gt e b_start).
Qed.

Lemma is_free_incl l l' s e :
  incl l l' -> is_free l' s e = true -> is_free l s e = true.
Proof.
  intros I H. apply is_free_spec. intros b Hb.
  apply (proj1 (is_free_spec l' s e) H). now apply I.
Qed.

Lemma is_free_same l l' s e :
  incl l l' -> incl l' l -> is_free l s e = is_free l' s e.
Proof.
  intros I I'.
  destruct (is_free l s e) eqn:A, (is_free l' s e) eqn:B; try reflexivity.
  - now rewrite (is_free_incl _ _ _ _ I' A) in B.
  - now rewrite (is_free_incl _ _ _ _ I B) in A.
Qed.

(** The test against two intervals that the merge joins is the test
    against their join. *)
Lemma overlaps_joined s e top x :
  instant s < instant e ->
  instant (fst top) <= instant (fst x) ->
  dt_gt (fst x) (snd top) = false ->
  overlaps s e (fst top, dt_max (snd top) (snd x))
  = overlaps s e top || overlaps s e x.
Proof.
  unfold overlaps, dt_max, dt_gt, dt_lt. simpl. intros H L G.
  apply Z.ltb_ge in G.
  destruct (Z.ltb_spec (instant (snd top)) (instant (snd x)));
    repeat match goal with
           | |- context [?a <? ?b] => destruct (Z.ltb_spec a b)
           end; simpl; try reflexivity; lia.
Qed.

Lemma is_free_coalesce s e l : forall top,
  instant s < instant e ->
  StronglySorted start_le (top :: l) ->
  is_free (coalesce top l) s e = is_free (top :: l) s e.
Proof.
  induction l as [|x l IH]; intros top H S; simpl coalesce; [reflexivity|].
  inversion S as [|? ? S' F]; subst. inversion F as [|? ? Lx Fl]; subst.
  destruct (dt_gt (fst x) (snd top)) eqn:G.
  - rewrite is_free_cons, (IH x H S'), <- is_free_cons. reflexivity.
  - rewrite IH; [|exact H|].
    + rewrite !is_free_cons, (overlaps_joined s e top x H Lx G).
      rewrite negb_orb, andb_assoc. reflexivity.
    + inversion S' as [|? ? S'' _]; subst. constructor; [exact S''|].
      eapply Forall_impl; [|exact Fl]. unfold start_le. simpl. auto.
Qed.

(** Whether a slot is free is the same before and after sort-and-merge. *)
Lemma is_free_sort_and_merge busy s e :
  instant s < instant e ->
  is_free (sort_and_merge busy) s e = is_free busy s e.
Proof.
  intros H. unfold sort_and_merge.
  pose proof (sort_by_start_sorted busy) as S.
  pose proof (sort_by_start_perm busy) as P.
  transitivity (is_free (sort_by_start busy) s e).
  - destruct (sort_by_start busy) as [|top l]; [reflexivity|].
    rewrite merge_cons. now apply is_free_coalesce.
  - apply is_free_same; intros b Hb.
    + eapply Permutation_in; [symmetry; exact P | exact Hb].
    + eapply Permutation_in; [exact P | exact Hb].
Qed.

(** X1.  The response of the slot loop, exactly: of the cursor positions
    [start], [start + delta], ... whose slot ends by the close of the
    window, there being [rounds] of them, the loop returns those whose slot
    is free, in that order. *)
Theorem slots_exact fuel busy start end_ delta out :
  0 < delta ->
  slots_loop fuel busy end_ delta start [] = Ok out ->
  out = filter (free_slot busy delta)
          (candidates delta start (rounds start end_ delta)).
Proof.
  intros Hd L. exact (slots_loop_filter busy end_ delta Hd fuel start [] out L).
Qed.

Lemma slots_exact_witness :
  0 < US_PER_HOUR
  /\ slots_loop 5 Samples.busy_gap (Samples.sat 14 0) US_PER_HOUR
       (Samples.sat 10 0) []
     = Ok [Samples.sat 11 0; Samples.sat 13 0]
  /\ rounds (Samples.sat 10 0) (Samples.sat 14 0) US_PER_HOUR = 4%nat
  /\ [Samples.sat 11 0; Samples.sat 13 0]
     = filter (free_slot Samples.busy_gap US_PER_HOUR)
         (candidates US_PER_HOUR (Samples.sat 10 0)
            (rounds (Samples.sat 10 0) (Samples.sat 14 0) US_PER_HOUR)).
Proof.
  assert (H1 : 0 < US_PER_HOUR) by reflexivity.
  assert (H2 : slots_loop 5 Samples.busy_gap (Samples.sat 14 0) US_PER_HOUR
                 (Samples.sat 10 0) []
               = Ok [Samples.sat 11 0; Samples.sat 13 0]) by reflexivity.
  repeat (split; [assumption || reflexivity|]).
  exact (slots_exact 5 Samples.busy_gap (Samples.sat 10 0) (Samples.sat 14 0)
           US_PER_HOUR _ H1 H2).
Defined.

(** X2.  The slots come out in chronological order, each strictly before
    the next, so none is returned twice. *)
Theorem slots_chronological fuel busy start end_ delta out :
  0 < delta ->
  slots_loop fuel busy end_ delta start [] = Ok out ->
  StronglySorted before out /\ NoDup out.
Proof.
  intros Hd L.
  assert (S : StronglySorted before out).
  { rewrite (slots_loop_filter busy end_ delta Hd fuel start [] out L).
    apply filter_strongly_sorted, candidates_before. exact Hd. }
  split; [exact S | now apply before_no_dup].
Qed.

Lemma slots_chronological_witness :
  0 < US_PER_HOUR
  /\ slots_loop 5 Samples.busy_gap (Samples.sat 14 0) US_PER_HOUR
       (Samples.sat 10 0) []
     = Ok [Samples.sat 11 0; Samples.sat 13 0]
  /\ StronglySorted before [Samples.sat 11 0; Samples.sat 13 0]
  /\ NoDup [Samples.sat 11 0; Samples.sat 13 0].
Proof.
  assert (H1 : 0 < US_PER_HOUR) by reflexivity.
  assert (H2 : slots_loop 5 Samples.busy_gap (Samples.sat 14 0) US_PER_HOUR
                 (Samples.sat 10 0) []
               = Ok [Samples.sat 11 0; Samples.sat 13 0]) by reflexivity.
  repeat (split; [assumption|]).
  exact (slots_chronological 5 Samples.busy_gap (Samples.sat 10 0)
           (Samples.sat 14 0) US_PER_HOUR _ H1 H2).
Defined.

(** X3.  The loop returns at most [rounds] slots, the whole part of the
    length of the window over the length of a slot, and exactly that many
    when nothing is busy. *)
Theorem slots_count fuel busy start end_ delta out :
  0 < delta ->
  slots_loop fuel busy end_ delta start [] = Ok out ->
  (List.length out <= rounds start end_ delta)%nat
  /\ (busy = [] -> List.length out = rounds start end_ delta).
Proof.
  intros Hd L.
  rewrite (slots_loop_filter busy end_ delta Hd fuel start [] out L).
  cbn [app]. clear L.
  set (cs := candidates delta start (rounds start end_ delta)).
  assert (Hc : List.length cs = rounds start end_ delta).
  { unfold cs, candidates. now rewrite length_map, length_seq. }
  split.
  - rewrite <- Hc. apply filter_length_le.
  - intros E. subst busy. rewrite <- Hc. f_equal.
    clear Hc. induction cs as [|c cs IH]; [reflexivity|].
    simpl. now rewrite IH.
Qed.

Lemma slots_count_witness :
  0 < 30 * US_PER_MINUTE
  /\ slots_loop 9 [] (Samples.sat 14 0) (30 * US_PER_MINUTE) (Samples.sat 10 0) []
     = Ok [Samples.sat 10 0; Samples.sat 10 30; Samples.sat 11 0;
           Samples.sat 11 30; Samples.sat 12 0; Samples.sat 12 30;
           Samples.sat 13 0; Samples.sat 13 30]
  /\ rounds (Samples.sat 10 0) (Samples.sat 14 0) (30 * US_PER_MINUTE) = 8%nat
  /\ (List.length [Samples.sat 10 0; Samples.sat 10 30; Samples.sat 11 0;
                   Samples.sat 11 30; Samples.sat 12 0; Samples.sat 12 30;
                   Samples.sat 13 0; Samples.sat 13 30]
      <= rounds (Samples.sat 10 0) (Samples.sat 14 0) (30 * US_PER_MINUTE))%nat.
Proof.
  assert (H1 : 0 < 30 * US_PER_MINUTE) by reflexivity.
  assert (H2 : slots_loop 9 [] (Samples.sat 14 0) (30 * US_PER_MINUTE)
                 (Samples.sat 10 0) []
               = Ok [Samples.sat 10 0; Samples.sat 10 30; Samples.sat 11 0;
                     Samples.sat 11 30; Samples.sat 12 0; Samples.sat 12 30;
                     Samples.sat 13 0; Samples.sat 13 30]) by reflexivity.
  repeat (split; [assumption || reflexivity|]).
  exact (proj1 (slots_count 9 [] (Samples.sat 10 0) (Samples.sat 14 0)
                  (30 * US_PER_MINUTE) _ H1 H2)).
Defined.

(** X4.  More busy time never yields a slot that was not there: if every
    interval of [busy] is also in [busy'], each slot returned for [busy'] is
    returned for [busy]. *)
Theorem more_busy_fewer_slots fuel fuel' busy busy' start end_ delta out out' :
  0 < delta ->
  incl busy busy' ->
  slots_loop fuel busy end_ delta start [] = Ok out ->
  slots_loop fuel' busy' end_ delta start [] = Ok out' ->
  incl out' out.
Proof.
  intros Hd I L L'.
  rewrite (slots_loop_filter busy end_ delta Hd fuel start [] out L).
  rewrite (slots_loop_filter busy' end_ delta Hd fuel' start [] out' L').
  intros s Hs. apply filter_In in Hs as [Hc Hf]. apply filter_In.
  split; [exact Hc|]. unfold free_slot in *. now apply (is_free_incl busy busy').
Qed.

Lemma more_busy_fewer_slots_witness :
  0 < US_PER_HOUR
  /\ incl Samples.busy_C Samples.busy_gap
  /\ slots_loop 5 Samples.busy_C (Samples.sat 14 0) US_PER_HOUR
       (Samples.sat 10 0) []
     = Ok [Samples.sat 11 0; Samples.sat 12 0; Samples.sat 13 0]
  /\ slots_loop 5 Samples.busy_gap (Samples.sat 14 0) US_PER_HOUR
       (Samples.sat 10 0) []
     = Ok [Samples.sat 11 0; Samples.sat 13 0]
  /\ incl [Samples.sat 11 0; Samples.sat 13 0]
       [Samples.sat 11 0; Samples.sat 12 0; Samples.sat 13 0].
Proof.
  assert (H1 : 0 < US_PER_HOUR) by reflexivity.
  assert (H2 : incl Samples.busy_C Samples.busy_gap)
    by (intros b [<-|[]]; left; reflexivity).
  assert (H3 : slots_loop 5 Samples.busy_C (Samples.sat 14 0) US_PER_HOUR
                 (Samples.sat 10 0) []
               = Ok [Samples.sat 11 0; Samples.sat 12 0; Samples.sat 13 0])
    by reflexivity.
  assert (H4 : slots_loop 5 Samples.busy_gap (Samples.sat 14 0) US_PER_HOUR
                 (Samples.sat 10 0) []
               = Ok [Samples.sat 11 0; Samples.sat 13 0]) by reflexivity.
  repeat (split; [assumption|]).
  exact (more_busy_fewer_slots 5 5 Samples.busy_C Samples.busy_gap
           (Samples.sat 10 0) (Samples.sat 14 0) US_PER_HOUR _ _ H1 H2 H3 H4).
Defined.

(** X5.  A busy interval that covers the whole window leaves no slot. *)
Theorem covering_interval_blocks fuel busy start end_ delta out b :
  0 < delta ->
  In b busy ->
  instant (fst b) <= instant start ->
  instant end_ <= instant (snd b) ->
  slots_loop fuel busy end_ delta start [] = Ok out ->
  out = [].
Proof.
  intros Hd Hb Ls Le L.
  destruct out as [|s out]; [reflexivity|]. exfalso.
  destruct (slots_loop_emits busy end_ delta Hd fuel start _ L s (or_introl eq_refl))
    as (e & _ & I & B & C & F).
  specialize (F b Hb). unfold overlaps, dt_lt, dt_gt in F.
  apply andb_false_iff in F as [F|F]; apply Z.ltb_ge in F; lia.
Qed.

Lemma covering_interval_blocks_witness :
  0 < US_PER_HOUR
  /\ In (Samples.busy_at Samples.cet Samples.saturday 0 0 23 59)
       [Samples.busy_at Samples.cet Samples.saturday 0 0 23 59]
  /\ instant (fst (Samples.busy_at Samples.cet Samples.saturday 0 0 23 59))
     <= instant (Samples.sat 10 0)
  /\ instant (Samples.sat 14 0)
     <= instant (snd (Samples.busy_at Samples.cet Samples.saturday 0 0 23 59))
  /\ slots_loop 5 [Samples.busy_at Samples.cet Samples.saturday 0 0 23 59]
       (Samples.sat 14 0) US_PER_HOUR (Samples.sat 10 0) [] = Ok []
  /\ @nil aware = [].
Proof.
  assert (H1 : 0 < US_PER_HOUR) by reflexivity.
  assert (H2 : In (Samples.busy_at Samples.cet Samples.saturday 0 0 23 59)
                 [Samples.busy_at Samples.cet Samples.saturday 0 0 23 59])
    by (left; reflexivity).
  assert (H3 : instant (fst (Samples.busy_at Samples.cet Samples.saturday 0 0 23 59))
               <= instant (Samples.sat 10 0))
    by (vm_compute; intros C; discriminate C).
  assert (H4 : instant (Samples.sat 14 0)
               <= instant (snd (Samples.busy_at Samples.cet Samples.saturday 0 0 23 59)))
    by (vm_compute; intros C; discriminate C).
  assert (H5 : slots_loop 5 [Samples.busy_at Samples.cet Samples.saturday 0 0 23 59]
                 (Samples.sat 14 0) US_PER_HOUR (Samples.sat 10 0) [] = Ok [])
    by reflexivity.
  repeat (split; [assumption|]).
  exact (covering_interval_blocks 5 _ (Samples.sat 10 0) (Samples.sat 14 0)
           US_PER_HOUR [] _ H1 H2 H3 H4 H5).
Defined.

End SlotsMore.

Section MergeMore.

(** X6.  The merge step is transparent to the slot loop: run on the merged
    list or on the list as collected, the loop does the same, whatever the
    window and the cursor. *)
Theorem merge_keeps_slots fuel busy end_ delta : forall start acc,
  0 < delta ->
  slots_loop fuel (sort_and_merge busy) end_ delta start acc
  = slots_loop fuel busy end_ delta start acc.
Proof.
  induction fuel as [|fuel IH]; intros start acc Hd; [reflexivity|].
  rewrite !slots_loop_round.
  destruct (aware_add start delta) as [nxt| |] eqn:E; try reflexivity.
  apply aware_add_ok in E as [_ I].
  rewrite is_free_sort_and_merge by lia.
  destruct (dt_le nxt end_); [now apply IH | reflexivity].
Qed.

Lemma merge_keeps_slots_witness :
  0 < US_PER_HOUR
  /\ sort_and_merge Samples.busy_unsorted <> Samples.busy_unsorted
  /\ slots_loop 12 (sort_and_merge Samples.busy_unsorted)
       (localize Samples.cet (Samples.at_ Samples.wednesday 18 0)) US_PER_HOUR
       (localize Samples.cet (Samples.at_ Samples.wednesday 9 0)) []
     = slots_loop 12 Samples.busy_unsorted
         (localize Samples.cet (Samples.at_ Samples.wednesday 18 0)) US_PER_HOUR
         (localize Samples.cet (Samples.at_ Samples.wednesday 9 0)) [].
Proof.
  assert (H1 : 0 < US_PER_HOUR) by reflexivity.
  split; [exact H1|]. split; [intros C; vm_compute in C; discriminate C|].
  exact (merge_keeps_slots 12 Samples.busy_unsorted _ US_PER_HOUR _ [] H1).
Defined.

Lemma dt_max_cases a b : dt_max a b = a \/ dt_max a b = b.
Proof. unfold dt_max. destruct (dt_gt b a); auto. Qed.

Lemma coalesce_keeps (P Q : aware -> Prop) l : forall top,
  Forall (fun x => P (fst x) /\ Q (snd x)) (top :: l) ->
  Forall (fun x => P (fst x) /\ Q (snd x)) (coalesce top l).
Proof.
  induction l as [|x l IH]; intros top F; simpl; [exact F|].
  inversion F as [|? ? [Pt Qt] F']; subst.
  inversion F' as [|? ? [Px Qx] F'']; subst.
  destruct (dt_gt (fst x) (snd top)).
  - constructor; [now split | now apply IH].
  - apply IH. constructor; [|exact F'']. simpl. split; [exact Pt|].
    destruct (dt_max_cases (snd top) (snd x)) as [-> | ->]; assumption.
Qed.

Lemma sort_and_merge_keeps (P Q : aware -> Prop) busy :
  Forall (fun x => P (fst x) /\ Q (snd x)) busy ->
  Forall (fun x => P (fst x) /\ Q (snd x)) (sort_and_merge busy).
Proof.
  intros F. unfold sort_and_merge.
  assert (F' : Forall (fun x => P (fst x) /\ Q (snd x)) (sort_by_start busy))
    by (eapply Permutation_Forall; [apply sort_by_start_perm | exact F]).
  destruct (sort_by_start busy) as [|top l]; [constructor|].
  rewrite merge_cons. now apply coalesce_keeps.
Qed.

Lemma coalesce_length l : forall top,
  (1 <= List.length (coalesce top l) <= S (List.length l))%nat.
Proof.
  induction l as [|x l IH]; intros top; simpl; [lia|].
  destruct (dt_gt (fst x) (snd top)).
  - specialize (IH x). simpl. lia.
  - specialize (IH (fst top, dt_max (snd top) (snd x))). lia.
Qed.

(** X7.  The merge step invents nothing: each interval it returns starts
    where an interval of the input starts and ends where an interval of the
    input ends; it returns no more intervals than it was given, and at
    least one unless it was given none. *)
Theorem merge_endpoints (busy : list interval) :
  (forall y, In y (sort_and_merge busy) ->
     (exists x, In x busy /\ fst y = fst x)
     /\ (exists x, In x busy /\ snd y = snd x))
  /\ (List.length (sort_and_merge busy) <= List.length busy)%nat
  /\ (sort_and_merge busy = [] <-> busy = []).
Proof.
  split; [|split].
  - assert (F : Forall (fun x => (exists z, In z busy /\ fst x = fst z)
                                 /\ (exists z, In z busy /\ snd x = snd z)) busy).
    { apply Forall_forall. intros x Hx. split; exists x; auto. }
    pose proof (sort_and_merge_keeps
                  (fun a => exists z, In z busy /\ a = fst z)
                  (fun a => exists z, In z busy /\ a = snd z) busy F) as G.
    rewrite Forall_forall in G. exact G.
  - unfold sort_and_merge.
    rewrite (Permutation_length (sort_by_start_perm busy)).
    destruct (sort_by_start busy) as [|top l]; [simpl; lia|].
    rewrite merge_cons. simpl. apply coalesce_length.
  - unfold sort_and_merge. split.
    + intros E. pose proof (sort_by_start_perm busy) as P.
      destruct (sort_by_start busy) as [|top l].
      * apply Permutation_sym in P. now apply Permutation_nil in P.
      * rewrite merge_cons in E. pose proof (coalesce_length l top). rewrite E in H.
        simpl in H. lia.
    + intros ->. reflexivity.
Qed.

Lemma merge_endpoints_witness :
  In (Samples.busy_at Samples.cet Samples.wednesday 9 0 10 30)
    (sort_and_merge Samples.busy_unsorted)
  /\ (exists x, In x Samples.busy_unsorted
                /\ fst (Samples.busy_at Samples.cet Samples.wednesday 9 0 10 30)
                   = fst x)
  /\ (exists x, In x Samples.busy_unsorted
                /\ snd (Samples.busy_at Samples.cet Samples.wednesday 9 0 10 30)
                   = snd x).
Proof.
  assert (H : In (Samples.busy_at Samples.cet Samples.wednesday 9 0 10 30)
                (sort_and_merge Samples.busy_unsorted))
    by (vm_compute; left; reflexivity).
  split; [exact H|].
  exact (proj1 (merge_endpoints Samples.busy_unsorted) _ H).
Defined.

End MergeMore.

Section LoopRange.

Variables (busy : list interval) (end_ : aware) (delta : Z).
Hypothesis delta_pos : 0 < delta.

(** While the cursor stays below the close of the window, its wall clock
    stays in range, given room for one more slot past the close. *)
Lemma slots_loop_no_raise fuel : forall cur acc,
  0 <= wall cur ->
  wall cur + delta < RANGE_END ->
  instant end_ + utcoffset cur + delta < RANGE_END ->
  forall e, slots_loop fuel busy end_ delta cur acc <> Raise e.
Proof.
  induction fuel as [|fuel IH]; intros cur acc W0 W1 W2 e; [discriminate|].
  rewrite slots_loop_round. unfold aware_add.
  assert (R : representable (wall cur + delta) = true).
  { unfold representable. fold RANGE_END.
    apply andb_true_iff. split; [apply Z.leb_le | apply Z.ltb_lt]; lia. }
  rewrite R.
  destruct (dt_le _ end_) eqn:L; [|discriminate].
  apply dt_le_spec in L. unfold instant in L. simpl in L.
  apply IH; simpl; unfold instant in *; lia.
Qed.

End LoopRange.

(** X8.  The slot loop returns, without [OverflowError], for a positive
    slot length whenever the window opens within the range of [datetime]
    and one more slot past the close would still be within it; the number
    of rounds needed is [enough_fuel]. *)
Theorem slots_loop_returns fuel busy start end_ delta :
  0 < delta ->
  0 <= wall start ->
  wall start + delta < RANGE_END ->
  instant end_ + utcoffset start + delta < RANGE_END ->
  (enough_fuel start end_ delta <= fuel)%nat ->
  exists out, slots_loop fuel busy end_ delta start [] = Ok out.
Proof.
  intros Hd W0 W1 W2 F.
  pose proof (slots_loop_no_raise busy end_ delta Hd fuel start [] W0 W1 W2) as NR.
  pose proof (enough_fuel_halts busy end_ delta Hd start [] fuel F) as NF.
  destruct (slots_loop fuel busy end_ delta start []) as [out|e|].
  - now exists out.
  - now contradiction (NR e).
  - now contradiction NF.
Qed.

Lemma slots_loop_returns_witness :
  0 < US_PER_HOUR
  /\ 0 <= wall (Samples.sat 10 0)
  /\ wall (Samples.sat 10 0) + US_PER_HOUR < RANGE_END
  /\ instant (Samples.sat 14 0) + utcoffset (Samples.sat 10 0) + US_PER_HOUR
     < RANGE_END
  /\ (enough_fuel (Samples.sat 10 0) (Samples.sat 14 0) US_PER_HOUR <= 5)%nat
  /\ exists out,
       slots_loop 5 Samples.busy_gap (Samples.sat 14 0) US_PER_HOUR
         (Samples.sat 10 0) [] = Ok out.
Proof.
  assert (H1 : 0 < US_PER_HOUR) by reflexivity.
  assert (H2 : 0 <= wall (Samples.sat 10 0))
    by (vm_compute; intros C; discriminate C).
  assert (H3 : wall (Samples.sat 10 0) + US_PER_HOUR < RANGE_END)
    by (vm_compute; reflexivity).
  assert (H4 : instant (Samples.sat 14 0) + utcoffset (Samples.sat 10 0)
               + US_PER_HOUR < RANGE_END) by (vm_compute; reflexivity).
  assert (H5 : (enough_fuel (Samples.sat 10 0) (Samples.sat 14 0) US_PER_HOUR
                <= 5)%nat) by (vm_compute; apply le_n).
  repeat (split; [assumption|]).
  exact (slots_loop_returns 5 Samples.busy_gap (Samples.sat 10 0)
           (Samples.sat 14 0) US_PER_HOUR H1 H2 H3 H4 H5).
Defined.

(* ===================================================================== *)
(** * Further properties of the fetcher                                  *)
(* ===================================================================== *)

Section FetcherMore.

Open Scope string_scope.

(** The stages a call of the fetcher can stop at. *)
Lemma fetch_cases w d tz :
  (fetch_busy_intervals_ical w d tz = ([], Ok []) /\ ical_url w = "")
  \/ (fetch_busy_intervals_ical w d tz = ([IoImport "ics"], Ok [])
      /\ ical_url w <> "" /\ exists e, ics_import w = Raises e)
  \/ (ical_url w <> "" /\ ics_import w = Returns tt
      /\ ((fetch_busy_intervals_ical w d tz
           = ([IoImport "ics"; IoHttpGet (ical_url w) 10], Ok [])
           /\ ((exists e, requests_get w (ical_url w) = Raises e)
               \/ (exists resp e, requests_get w (ical_url w) = Returns resp
                                  /\ status_error resp = Some e)
               \/ (exists resp e, requests_get w (ical_url w) = Returns resp
                                  /\ status_error resp = None
                                  /\ ics_Calendar w (text resp) = Raises e)))
          \/ exists resp events,
               requests_get w (ical_url w) = Returns resp
               /\ status_error resp = None
               /\ ics_Calendar w (text resp) = Returns events
               /\ fetch_busy_intervals_ical w d tz
                  = ([IoImport "ics"; IoHttpGet (ical_url w) 10],
                     end_of_day <~ aware_add (localize tz (midnight d)) US_PER_DAY;;
                     busy <~ collect_busy tz (localize tz (midnight d))
                               end_of_day events [];;
                     Ok (sort_and_merge busy)))).
Proof.
  destruct (string_dec (ical_url w) "") as [U|U];
    [left; split; [now apply fetch_unconfigured | exact U]|].
  right.
  destruct (ics_import w) as [[]|e] eqn:I;
    [|left; split; [now apply (fetch_import_error w d tz e) | split; [exact U | now exists e]]].
  right. split; [exact U|]. split; [reflexivity|].
  destruct (requests_get w (ical_url w)) as [resp|e] eqn:G.
  2:{ left. split; [now apply (fetch_transport_error w d tz e)|]. left. now exists e. }
  destruct (status_error resp) as [e|] eqn:S.
  { left. split; [now apply (fetch_status_error w d tz resp e)|].
    right; left. now exists resp, e. }
  destruct (ics_Calendar w (text resp)) as [events|e] eqn:C.
  2:{ left. split; [now apply (fetch_parse_error w d tz resp e)|].
      right; right. now exists resp, e. }
  right. exists resp, events. repeat split; try assumption.
  exact (fetch_parsed w d tz resp events U I G S C).
Qed.

(** What a call that returns went through. *)
Lemma fetch_ok_inv w d tz trace busy :
  fetch_busy_intervals_ical w d tz = (trace, Ok busy) ->
  busy = []
  \/ exists end_of_day events raw,
       aware_add (localize tz (midnight d)) US_PER_DAY = Ok end_of_day
       /\ collect_busy tz (localize tz (midnight d)) end_of_day events [] = Ok raw
       /\ busy = sort_and_merge raw.
Proof.
  intros F.
  destruct (fetch_cases w d tz)
    as [[E _]|[[E _]|(_ & _ & [[E _]|(resp & events & _ & _ & _ & E)])]];
    rewrite E in F; try (injection F as _ <-; now left).
  right.
  destruct (aware_add _ _) as [end_of_day| |] eqn:A; try discriminate.
  simpl in F.
  destruct (collect_busy _ _ _ _ _) as [raw| |] eqn:C; try discriminate.
  simpl in F. injection F as _ <-.
  now exists end_of_day, events, raw.
Qed.

(** Every interval the loop keeps is clipped to the day. *)
Lemma collect_busy_within tz start_of_day end_of_day events : forall busy out,
  Forall (within start_of_day end_of_day) busy ->
  collect_busy tz start_of_day end_of_day events busy = Ok out ->
  Forall (within start_of_day end_of_day) out.
Proof.
  induction events as [|ev events IH]; intros busy out P C; simpl in C.
  - now injection C as <-.
  - destruct (event_fields ev) as [[ev_start ev_end]| |]; try discriminate;
      [|now apply (IH busy)].
    destruct (normalize tz ev_start) as [a| |]; simpl in C; try discriminate.
    destruct (normalize tz ev_end) as [b| |]; simpl in C; try discriminate.
    refine (IH _ _ _ C).
    destruct (dt_lt (dt_max a start_of_day) (dt_min b end_of_day)) eqn:L;
      [|exact P].
    apply Forall_app. split; [exact P|]. constructor; [|constructor].
    unfold within, dt_max, dt_min, dt_gt, dt_lt. simpl.
    split.
    + destruct (Z.ltb_spec (instant a) (instant start_of_day)); lia.
    + destruct (Z.ltb_spec (instant end_of_day) (instant b)); lia.
Qed.



Lemma fetch_trace_in w d tz :
  In (fst (fetch_busy_intervals_ical w d tz)) (fetch_traces w).
Proof.
  unfold fetch_traces.
  destruct (fetch_cases w d tz)
    as [[E _]|[[E _]|(_ & _ & [[E _]|(resp & events & _ & _ & _ & E)])]];
    rewrite E; simpl; tauto.
Qed.

(** X10.  What the fetcher does to the outside: nothing when the URL is
    blank; otherwise it imports the calendar package and, if that worked,
    sends one request, to the stripped URL, with a timeout of 10 seconds.
    It never sends a second request and never one to another address. *)
Theorem fetch_trace_discipline w d tz :
  In (fst (fetch_busy_intervals_ical w d tz)) (fetch_traces w)
  /\ (ical_url w = "" -> fst (fetch_busy_intervals_ical w d tz) = [])
  /\ (forall url n,
        In (IoHttpGet url n) (fst (fetch_busy_intervals_ical w d tz)) ->
        url = ical_url w /\ n = 10 /\ url <> "" /\ ics_import w = Returns tt).
Proof.
  unfold fetch_traces.
  destruct (fetch_cases w d tz)
    as [[E U]|[(E & U & e & I)|(U & I & [[E _]|(resp & events & _ & _ & _ & E)])]];
    rewrite E; simpl; (split; [tauto|]); (split; [try tauto|]);
    intros url n H;
    repeat match goal with
           | H : _ \/ _ |- _ => destruct H
           | H : False |- _ => destruct H
           | H : IoImport _ = IoHttpGet _ _ |- _ => discriminate H
           | H : IoHttpGet _ _ = IoHttpGet _ _ |- _ => injection H as <- <-
           end; auto.
Qed.

Lemma fetch_trace_discipline_witness :
  In (IoHttpGet Samples.feed_url 10)
    (fst (fetch_busy_intervals_ical Samples.world_C Samples.saturday Samples.cet))
  /\ Samples.feed_url = ical_url Samples.world_C
  /\ ics_import Samples.world_C = Returns tt.
Proof.
  assert (H : In (IoHttpGet Samples.feed_url 10)
                (fst (fetch_busy_intervals_ical Samples.world_C Samples.saturday
                        Samples.cet))) by (right; left; reflexivity).
  split; [exact H|].
  destruct (proj2 (proj2 (fetch_trace_discipline Samples.world_C Samples.saturday
                            Samples.cet)) _ _ H) as (A & _ & _ & B).
  split; [exact A | exact B].
Defined.

(** X11.  Each way the retrieval can fail ends in the empty list, not in an
    exception: a blank URL, a failed import of the calendar package, a
    request that raises, a response with an error status, a body that does
    not parse. *)
Theorem fetch_degrades w d tz :
  ical_url w = ""
  \/ (exists e, ics_import w = Raises e)
  \/ (exists e, requests_get w (ical_url w) = Raises e)
  \/ (exists resp e, requests_get w (ical_url w) = Returns resp
                     /\ status_error resp = Some e)
  \/ (exists resp e, requests_get w (ical_url w) = Returns resp
                     /\ ics_Calendar w (text resp) = Raises e) ->
  snd (fetch_busy_intervals_ical w d tz) = Ok [].
Proof.
  intros H.
  destruct (fetch_cases w d tz)
    as [[E _]|[[E _]|(U & I & [[E _]|(resp & events & G & S & C & _)])]];
    try (rewrite E; reflexivity).
  exfalso.
  destruct H as [H|[[e H]|[[e H]|[(r & e & H & H')|(r & e & H & H')]]]];
    congruence.
Qed.

Lemma fetch_degrades_witness :
  (exists resp e,
     requests_get Samples.world_down (ical_url Samples.world_down) = Returns resp
     /\ status_error resp = Some e)
  /\ snd (fetch_busy_intervals_ical Samples.world_down Samples.wednesday
            Samples.cet) = Ok [].
Proof.
  assert (H : exists resp e,
            requests_get Samples.world_down (ical_url Samples.world_down)
            = Returns resp /\ status_error resp = Some e).
  { eexists _, _. split; reflexivity. }
  split; [exact H|].
  apply fetch_degrades. right; right; right; left. exact H.
Defined.

(** X12.  An event whose fields cannot be read is passed over and the
    events after it are still processed: the loop returns what it returns
    without that event. *)
Theorem unreadable_event_skipped tz start_of_day end_of_day bad e before after busy :
  event_fields bad = Raise e ->
  collect_busy tz start_of_day end_of_day (before ++ bad :: after) busy
  = collect_busy tz start_of_day end_of_day (before ++ after) busy.
Proof.
  intros B. revert busy.
  induction before as [|ev before IH]; intros busy; simpl.
  - now rewrite B.
  - destruct (event_fields ev) as [[ev_start ev_end]| |]; try reflexivity;
      [|apply IH].
    destruct (normalize tz ev_start); simpl; try reflexivity.
    destruct (normalize tz ev_end); simpl; try reflexivity.
    apply IH.
Qed.

Lemma unreadable_event_skipped_witness :
  event_fields Samples.broken_event = Raise (OtherException "AttributeError")
  /\ collect_busy Samples.cet (Samples.sat 0 0) Samples.sat_end
       ([Samples.event Samples.saturday 12 0 13 0] ++
        Samples.broken_event :: [Samples.event Samples.saturday 10 0 11 0]) []
     = Ok [Samples.busy_at Samples.cet Samples.saturday 12 0 13 0;
           Samples.busy_at Samples.cet Samples.saturday 10 0 11 0].
Proof.
  assert (H : event_fields Samples.broken_event
              = Raise (OtherException "AttributeError")) by reflexivity.
  split; [exact H|].
  rewrite (unreadable_event_skipped Samples.cet _ _ _ _ _ _ _ H).
  reflexivity.
Defined.

(** X13.  An event that is over by the start of the day, or begins at or
    after its end, or does not begin before it ends, leaves nothing in the
    busy list. *)
Theorem event_outside_day_discarded
    tz start_of_day end_of_day ev rest busy ev_start ev_end a b :
  event_fields ev = Ok (ev_start, ev_end) ->
  normalize tz ev_start = Ok a ->
  normalize tz ev_end = Ok b ->
  instant b <= instant start_of_day
  \/ instant end_of_day <= instant a
  \/ instant b <= instant a ->
  collect_busy tz start_of_day end_of_day (ev :: rest) busy
  = collect_busy tz start_of_day end_of_day rest busy.
Proof.
  intros F Na Nb H. simpl. rewrite F, Na. simpl. rewrite Nb. simpl.
  replace (dt_lt (dt_max a start_of_day) (dt_min b end_of_day)) with false;
    [reflexivity|].
  symmetry. unfold dt_lt, dt_max, dt_min, dt_gt, dt_lt.
  destruct (Z.ltb_spec (instant a) (instant start_of_day));
    destruct (Z.ltb_spec (instant end_of_day) (instant b));
    apply Z.ltb_ge; lia.
Qed.

Lemma event_outside_day_discarded_witness :
  event_fields (Samples.event Samples.friday 10 0 11 0)
  = Ok (Naive (Samples.at_ Samples.friday 10 0),
        Naive (Samples.at_ Samples.friday 11 0))
  /\ (instant (localize Samples.cet (Samples.at_ Samples.friday 11 0))
      <= instant (Samples.sat 0 0))
  /\ collect_busy Samples.cet (Samples.sat 0 0) Samples.sat_end
       [Samples.event Samples.friday 10 0 11 0;
        Samples.event Samples.saturday 10 0 11 0] []
     = Ok [Samples.busy_at Samples.cet Samples.saturday 10 0 11 0].
Proof.
  assert (H1 : event_fields (Samples.event Samples.friday 10 0 11 0)
               = Ok (Naive (Samples.at_ Samples.friday 10 0),
                     Naive (Samples.at_ Samples.friday 11 0))) by reflexivity.
  assert (H2 : instant (localize Samples.cet (Samples.at_ Samples.friday 11 0))
               <= instant (Samples.sat 0 0))
    by (vm_compute; intros C; discriminate C).
  repeat (split; [assumption|]).
  rewrite (event_outside_day_discarded Samples.cet _ _ _ _ _ _ _ _ _
             H1 eq_refl eq_refl (or_introl H2)).
  reflexivity.
Defined.



End FetcherMore.

(* ===================================================================== *)
(** * Further properties of the pipeline                                 *)
(* ===================================================================== *)

Section DateStrings.

Lemma is_digit_cases c :
  is_digit c = true ->
  (c = "0" \/ c = "1" \/ c = "2" \/ c = "3" \/ c = "4"
   \/ c = "5" \/ c = "6" \/ c = "7" \/ c = "8" \/ c = "9")%char.
Proof.
  destruct c as [[] [] [] [] [] [] [] []]; vm_compute; intros H;
    try discriminate H;
    repeat (first [left; reflexivity | right]); reflexivity.
Qed.

Ltac digit_cases c H :=
  destruct (is_digit_cases c H) as [?|[?|[?|[?|[?|[?|[?|[?|[?|?]]]]]]]]]; subst c.

Lemma parse_month_two m1 m2 rest :
  is_digit m1 = true -> is_digit m2 = true ->
  parse_month (String m1 (String m2 (String "-"%char rest)))
  = if (1 <=? 10 * digit_val m1 + digit_val m2)
       && (10 * digit_val m1 + digit_val m2 <=? 12)
    then Some (10 * digit_val m1 + digit_val m2, rest) else None.
Proof.
  intros H1 H2. digit_cases m1 H1; digit_cases m2 H2; reflexivity.
Qed.

Lemma parse_day_two d1 d2 :
  is_digit d1 = true -> is_digit d2 = true ->
  parse_day (String d1 (String d2 EmptyString))
  = if (1 <=? 10 * digit_val d1 + digit_val d2)
       && (10 * digit_val d1 + digit_val d2 <=? 31)
    then Some (10 * digit_val d1 + digit_val d2) else None.
Proof.
  intros H1 H2. digit_cases d1 H1; digit_cases d2 H2; reflexivity.
Qed.

Lemma days_in_month_bound y m :
  1 <= m <= 12 -> 28 <= days_in_month y m <= 31.
Proof.
  intros H. unfold days_in_month.
  assert (C : m = 1 \/ m = 2 \/ m = 3 \/ m = 4 \/ m = 5 \/ m = 6 \/ m = 7
              \/ m = 8 \/ m = 9 \/ m = 10 \/ m = 11 \/ m = 12) by lia.
  destruct C as [->|[->|[->|[->|[->|[->|[->|[->|[->|[->|[->| ->]]]]]]]]]]];
    destruct (is_leap y); simpl; lia.
Qed.

Lemma valid_date_bounds y m d :
  valid_date y m d = true ->
  1 <= y <= 9999 /\ 1 <= m <= 12 /\ 1 <= d <= days_in_month y m /\ d <= 31.
Proof.
  unfold valid_date, MINYEAR, MAXYEAR. intros H.
  repeat (apply andb_true_iff in H as [H ?]).
  repeat match goal with H : (_ <=? _) = true |- _ => apply Z.leb_le in H end.
  pose proof (days_in_month_bound y m ltac:(lia)). lia.
Qed.

(** The shape of a string the pattern accepts. *)
Lemma date_pattern_shape s :
  date_pattern s = true ->
  exists y1 y2 y3 y4 m1 m2 d1 d2,
    s = String y1 (String y2 (String y3 (String y4 (String "-"%char
          (String m1 (String m2 (String "-"%char
             (String d1 (String d2 EmptyString)))))))))
    /\ is_digit y1 = true /\ is_digit y2 = true /\ is_digit y3 = true
    /\ is_digit y4 = true /\ is_digit m1 = true /\ is_digit m2 = true
    /\ is_digit d1 = true /\ is_digit d2 = true.
Proof.
  intros H.
  destruct s as [|y1 s]; [discriminate H|].
  destruct s as [|y2 s]; [discriminate H|].
  destruct s as [|y3 s]; [discriminate H|].
  destruct s as [|y4 s]; [discriminate H|].
  destruct s as [|c4 s]; [discriminate H|].
  assert (c4 = "-"%char).
  { destruct c4 as [[] [] [] [] [] [] [] []]; try reflexivity; discriminate H. }
  subst c4.
  destruct s as [|m1 s]; [discriminate H|].
  destruct s as [|m2 s]; [discriminate H|].
  destruct s as [|c7 s]; [discriminate H|].
  assert (c7 = "-"%char).
  { destruct c7 as [[] [] [] [] [] [] [] []]; try reflexivity; discriminate H. }
  subst c7.
  destruct s as [|d1 s]; [discriminate H|].
  destruct s as [|d2 s]; [discriminate H|].
  destruct s as [|x s]; [|discriminate H].
  cbn -[is_digit] in H. do 7 (apply andb_true_iff in H as [H ?]).
  exists y1, y2, y3, y4, m1, m2, d1, d2. repeat split; assumption.
Qed.



End DateStrings.

Section PipelineMore.

Lemma strptime_valid s d :
  strptime s = Ok d -> valid_date (year d) (month d) (day d) = true.
Proof.
  unfold strptime. intros H.
  repeat match type of H with
         | context [match ?x with _ => _ end] => destruct x eqn:?
         end; try discriminate H.
  injection H as <-. assumption.
Qed.

Lemma days_before_year_nonneg y : 1 <= y -> 0 <= days_before_year y.
Proof.
  intros H. unfold days_before_year. cbv zeta.
  pose proof (Z.div_pos (y - 1) 4 ltac:(lia) ltac:(lia)).
  pose proof (Z.div_pos (y - 1) 400 ltac:(lia) ltac:(lia)).
  assert ((y - 1) / 100 <= y - 1)
    by (apply Z.div_le_upper_bound; lia).
  lia.
Qed.

Lemma days_before_month_nonneg y m : 1 <= m <= 12 -> 0 <= days_before_month y m.
Proof.
  intros H. unfold days_before_month.
  assert (C : m = 1 \/ m = 2 \/ m = 3 \/ m = 4 \/ m = 5 \/ m = 6 \/ m = 7
              \/ m = 8 \/ m = 9 \/ m = 10 \/ m = 11 \/ m = 12) by lia.
  destruct C as [->|[->|[->|[->|[->|[->|[->|[->|[->|[->|[->| ->]]]]]]]]]]];
    destruct (is_leap y); simpl; lia.
Qed.

(** Midnight of a date that was parsed is on the calendar's time line. *)
Lemma midnight_nonneg s d : strptime s = Ok d -> 0 <= midnight d.
Proof.
  intros H. apply strptime_valid in H.
  unfold valid_date, MINYEAR in H.
  repeat (apply andb_true_iff in H as [H ?]).
  repeat match goal with H : (_ <=? _) = true |- _ => apply Z.leb_le in H end.
  unfold midnight, toordinal, ymd2ord.
  pose proof (days_before_year_nonneg (year d) ltac:(lia)).
  pose proof (days_before_month_nonneg (year d) (month d) ltac:(lia)).
  unfold US_PER_DAY, US_PER_HOUR, US_PER_MINUTE, US_PER_SECOND. lia.
Qed.

Lemma business_hours_values d open_t close_t :
  get_business_hours d = Some (open_t, close_t) ->
  (open_t = mktime 9 0 /\ close_t = mktime 18 0)
  \/ (open_t = mktime 10 0 /\ close_t = mktime 14 0).
Proof.
  unfold get_business_hours. cbv zeta.
  destruct (existsb _ _); [intros [= <- <-]; now left|].
  destruct (weekday d =? 5); [intros [= <- <-]; now right | discriminate].
Qed.

Lemma timedelta_minutes_in_range minutes :
  0 < minutes -> minutes * US_PER_MINUTE <= RANGE_END ->
  timedelta_minutes minutes = Ok (minutes * US_PER_MINUTE).
Proof.
  intros H R. unfold timedelta_minutes.
  assert (0 <= minutes / (24 * 60)) by (apply Z.div_pos; lia).
  assert (minutes / (24 * 60) <= 999999999).
  { apply Z.div_le_upper_bound; [lia|].
    unfold RANGE_END, MAXORDINAL, US_PER_DAY, US_PER_HOUR, US_PER_MINUTE,
      US_PER_SECOND in R. lia. }
  rewrite Z.abs_eq by assumption.
  now rewrite (proj2 (Z.leb_le _ _)).
Qed.



(** X17.  The flag of a response says whether the variable
    GOOGLE_CALENDAR_ICAL_URL is set to a non-empty string, and nothing
    else: neither the feed nor the date nor the slot length bears on it. *)
Theorem configured_iff_nonempty fuel w date_str minutes trace resp :
  generate_slots fuel w date_str minutes = (trace, Ok resp) ->
  (configured resp = true
   <-> exists v, environ w "GOOGLE_CALENDAR_ICAL_URL"%string = Some v /\ v <> ""%string).
Proof.
  intros G. rewrite (configured_from_environment _ _ _ _ _ _ G).
  destruct (environ w "GOOGLE_CALENDAR_ICAL_URL"%string) as [[|c v]|]; simpl; split.
  - discriminate.
  - intros (v & [= <-] & H). now contradiction H.
  - intros _. eexists. split; [reflexivity | discriminate].
  - reflexivity.
  - discriminate.
  - intros (v & H & _). discriminate H.
Qed.

Lemma configured_iff_nonempty_witness :
  generate_slots 0 Samples.world_down "2024-01-07"%string 30
  = ([], Ok (mkAvailabilityResponse "2024-01-07"%string "Europe/Amsterdam"%string 30 [] true))
  /\ exists v,
       environ Samples.world_down "GOOGLE_CALENDAR_ICAL_URL"%string = Some v /\ v <> ""%string.
Proof.
  assert (H : generate_slots 0 Samples.world_down "2024-01-07"%string 30
              = ([], Ok (mkAvailabilityResponse "2024-01-07"%string "Europe/Amsterdam"%string
                           30 [] true))) by reflexivity.
  split; [exact H|].
  exact (proj1 (configured_iff_nonempty _ _ _ _ _ _ H) eq_refl).
Defined.

Lemma filter_all_free delta cs :
  filter (free_slot [] delta) cs = cs.
Proof. induction cs as [|c cs IH]; [reflexivity|]. simpl. now rewrite IH. Qed.

(** X18.  Without a feed every slot of the business window is offered: the
    response holds as many slots as whole slot lengths fit in the window,
    540 minutes from Monday to Friday, 240 on Saturday, none on Sunday,
    and nothing was imported or requested.  The local offset is taken to be
    the same at the opening and at the close of the window. *)
Theorem unconfigured_slot_count fuel w date_str minutes tz d trace resp :
  0 < minutes ->
  ical_url w = ""%string ->
  pytz_timezone w (tz_name w) = Some tz ->
  strptime date_str = Ok d ->
  (forall open_t close_t,
     get_business_hours d = Some (open_t, close_t) ->
     local_offset tz (combine d open_t) = local_offset tz (combine d close_t)) ->
  generate_slots fuel w date_str minutes = (trace, Ok resp) ->
  List.length (slots resp) = Z.to_nat (open_minutes d / minutes)
  /\ trace = [].
Proof.
  intros Hm U T P O G.
  destruct (generate_slots_returns _ _ _ _ _ _ G)
    as (tz' & d' & T' & P' & _ & _ & _ & _ & C).
  rewrite T in T'. injection T' as <-. rewrite P in P'. injection P' as <-.
  unfold open_minutes.
  destruct C as [(H & -> & ->)|(open_t & close_t & busy & delta & H & F & D & L)].
  - rewrite H. split; reflexivity.
  - rewrite H. rewrite (fetch_unconfigured w d tz U) in F.
    injection F as <- <-. split; [|reflexivity].
    apply timedelta_minutes_ok in D.
    assert (Hd : 0 < delta)
      by (subst delta; unfold US_PER_MINUTE, US_PER_SECOND; lia).
    rewrite (slots_loop_filter [] _ delta Hd fuel _ [] _ L).
    cbn [app]. rewrite filter_all_free.
    unfold candidates. rewrite length_map, length_seq. unfold rounds.
    f_equal. unfold instant, localize. simpl wall. simpl utcoffset.
    rewrite (O _ _ H).
    replace (_ - _ - _)
      with (((hour close_t * 60 + minute close_t)
             - (hour open_t * 60 + minute open_t)) * US_PER_MINUTE)
      by (unfold combine, US_PER_HOUR; lia).
    subst delta. apply Z.div_mul_cancel_r; [lia | discriminate].
Qed.

Lemma unconfigured_slot_count_witness :
  0 < 45
  /\ ical_url Samples.world_plain = ""%string
  /\ pytz_timezone Samples.world_plain (tz_name Samples.world_plain)
     = Some Samples.cet
  /\ strptime "2024-01-03"%string = Ok Samples.wednesday
  /\ (forall open_t close_t,
        get_business_hours Samples.wednesday = Some (open_t, close_t) ->
        local_offset Samples.cet (combine Samples.wednesday open_t)
        = local_offset Samples.cet (combine Samples.wednesday close_t))
  /\ (exists resp,
        generate_slots 13 Samples.world_plain "2024-01-03"%string 45 = ([], Ok resp)
        /\ List.length (slots resp) = Z.to_nat (open_minutes Samples.wednesday / 45)
        /\ List.length (slots resp) = 12%nat).
Proof.
  assert (H1 : 0 < 45) by reflexivity.
  assert (H2 : ical_url Samples.world_plain = ""%string) by reflexivity.
  assert (H3 : pytz_timezone Samples.world_plain (tz_name Samples.world_plain)
               = Some Samples.cet) by reflexivity.
  assert (H4 : strptime "2024-01-03"%string = Ok Samples.wednesday) by reflexivity.
  assert (H5 : forall open_t close_t,
            get_business_hours Samples.wednesday = Some (open_t, close_t) ->
            local_offset Samples.cet (combine Samples.wednesday open_t)
            = local_offset Samples.cet (combine Samples.wednesday close_t))
    by reflexivity.
  repeat (split; [assumption|]).
  eexists. split; [vm_compute; reflexivity|].
  split; [|reflexivity].
  refine (proj1 (unconfigured_slot_count 13 Samples.world_plain "2024-01-03"%string 45
                   Samples.cet Samples.wednesday [] _ H1 H2 H3 H4 H5 _)).
  vm_compute. reflexivity.
Defined.

(** X19.  One call of [generate_slots] acts on the outside at most as one
    call of the fetcher does: an import of the calendar package and then
    at most one request, to the configured URL; it does nothing at all
    when the zone is unknown, the date does not parse or the day is
    closed. *)
Theorem generate_slots_trace_discipline fuel w date_str minutes :
  In (fst (generate_slots fuel w date_str minutes)) (fetch_traces w)
  /\ (pytz_timezone w (tz_name w) = None
      \/ (exists e, strptime date_str = Raise e)
      \/ (exists d, strptime date_str = Ok d /\ get_business_hours d = None) ->
      fst (generate_slots fuel w date_str minutes) = []).
Proof.
  assert (Nil : In (@nil io) (fetch_traces w)) by (left; reflexivity).
  destruct (pytz_timezone w (tz_name w)) as [tz|] eqn:T.
  2:{ unfold generate_slots. fold (tz_name w). rewrite T. simpl. now split. }
  destruct (strptime date_str) as [d|e|] eqn:P.
  2,3: unfold generate_slots; fold (tz_name w); rewrite T, P; simpl; now split.
  destruct (get_business_hours d) as [[open_t close_t]|] eqn:H.
  2:{ rewrite (generate_slots_closed fuel w date_str minutes tz d T P H).
      simpl. now split. }
  split.
  - rewrite (generate_slots_open fuel w date_str minutes tz d _ _ T P H).
    pose proof (fetch_trace_in w d tz) as I.
    destruct (fetch_busy_intervals_ical w d tz) as [t [busy|e|]]; simpl in *;
      try exact I.
    destruct (timedelta_minutes minutes); simpl; rewrite ?app_nil_r; try exact I.
    destruct (slots_loop _ _ _ _ _ _); simpl; rewrite ?app_nil_r; exact I.
  - intros [C|[[e C]|(d' & C & C')]]; try discriminate C.
    injection C as <-. rewrite H in C'. discriminate C'.
Qed.

Lemma generate_slots_trace_discipline_witness :
  (exists d, strptime "2024-01-07"%string = Ok d /\ get_business_hours d = None)
  /\ fst (generate_slots 0 Samples.world_C "2024-01-07"%string 30) = [].
Proof.
  assert (H : exists d, strptime "2024-01-07"%string = Ok d
                        /\ get_business_hours d = None)
    by (exists Samples.sunday; split; reflexivity).
  split; [exact H|].
  apply (proj2 (generate_slots_trace_discipline 0 Samples.world_C
                  "2024-01-07"%string 30)).
  right; right. exact H.
Defined.

End PipelineMore.

Section Configuration.

Lemma lstrip_empty s : lstrip s = EmptyString <-> blank s = true.
Proof.
  induction s as [|c s IH]; simpl; [tauto|].
  destruct (isspace c); simpl; [exact IH|]. split; discriminate.
Qed.

Lemma lstrip_head s c t : lstrip s = String c t -> isspace c = false.
Proof.
  induction s as [|a s IH]; simpl; [discriminate|].
  destruct (isspace a) eqn:E; [exact IH|]. now intros [= <- _].
Qed.

Lemma rstrip_nonempty c t : isspace c = false -> rstrip (String c t) <> EmptyString.
Proof.
  intros H. simpl. destruct (rstrip t); [rewrite H|]; discriminate.
Qed.

Lemma strip_empty s : strip s = EmptyString <-> blank s = true.
Proof.
  unfold strip. rewrite <- lstrip_empty.
  destruct (lstrip s) as [|c t] eqn:E.
  - simpl. tauto.
  - split; [|discriminate].
    intros H. exfalso. exact (rstrip_nonempty c t (lstrip_head _ _ _ E) H).
Qed.

(** X20.  The feed counts as not configured exactly when the variable
    GOOGLE_CALENDAR_ICAL_URL is absent or holds nothing but whitespace; and
    exactly then the fetcher leaves the outside alone: otherwise it at
    least imports the calendar package. *)
Theorem unconfigured_iff_blank w d tz :
  (ical_url w = EmptyString
   <-> environ w "GOOGLE_CALENDAR_ICAL_URL"%string = None
       \/ exists v, environ w "GOOGLE_CALENDAR_ICAL_URL"%string = Some v
                    /\ blank v = true)
  /\ (fst (fetch_busy_intervals_ical w d tz) = [] <-> ical_url w = EmptyString).
Proof.
  split.
  - unfold ical_url, getenv_default.
    destruct (environ w "GOOGLE_CALENDAR_ICAL_URL"%string) as [v|].
    + rewrite strip_empty. split.
      * intros H. right. now exists v.
      * intros [H|(v' & [= <-] & H)]; [discriminate H | exact H].
    + split; [now left | reflexivity].
  - destruct (fetch_cases w d tz)
      as [[E U]|[(E & U & _)|(U & _ & [[E _]|(resp & events & _ & _ & _ & E)])]];
      rewrite E; simpl; split; intros H; try discriminate H; try contradiction;
      auto.
Qed.

Lemma unconfigured_iff_blank_witness :
  (exists v, environ Samples.world_blank "GOOGLE_CALENDAR_ICAL_URL"%string = Some v
             /\ blank v = true)
  /\ ical_url Samples.world_blank = EmptyString
  /\ fst (fetch_busy_intervals_ical Samples.world_blank Samples.wednesday
            Samples.cet) = [].
Proof.
  assert (H : exists v,
            environ Samples.world_blank "GOOGLE_CALENDAR_ICAL_URL"%string = Some v
            /\ blank v = true) by (eexists; split; reflexivity).
  split; [exact H|].
  destruct (unconfigured_iff_blank Samples.world_blank Samples.wednesday
              Samples.cet) as [A B].
  assert (U : ical_url Samples.world_blank = EmptyString)
    by (apply (proj2 A); right; exact H).
  split; [exact U | exact (proj2 B U)].
Defined.

End Configuration.

(* ===================================================================== *)
(** * The diagnostic endpoint                                            *)
(* ===================================================================== *)

Section DiagnosticsProps.

Local Open Scope string_scope.

(** The stages the endpoint can stop at, and the report of each. *)
Lemma test_database_cases w dbm :
  exists r,
    test_database w dbm
    = ([IoImport "database"],
       Ok (set_database_name
             (set_database_url r
                (Some (if opt_str_truthy (getenv w "DATABASE_URL")
                       then "✅ Set" else "❌ Not Set")))
             (Some (if opt_str_truthy (getenv w "DATABASE_NAME")
                    then "✅ Set" else "❌ Not Set"))))
    /\ backend r = "✅ Running"
    /\ ((exists e, import_db dbm = Raises e
                   /\ connection_status r = "Not Connected"
                   /\ collections r = [])
        \/ (import_db dbm = Returns None
            /\ connection_status r = "Not Connected"
            /\ collections r = []
            /\ database r = "⚠️  Available but not initialized")
        \/ (exists db e, import_db dbm = Returns (Some db)
                         /\ list_collection_names db = Raises e
                         /\ connection_status r = "Connected"
                         /\ collections r = []
                         /\ database r
                            = "⚠️  Connected but Error: "
                              ++ substring 0 50 (str_of dbm e))
        \/ (exists db names, import_db dbm = Returns (Some db)
                             /\ list_collection_names db = Returns names
                             /\ connection_status r = "Connected"
                             /\ collections r = firstn 10 names
                             /\ database r = "✅ Connected & Working")).
Proof.
  unfold test_database.
  destruct (import_db dbm) as [[db|]|e] eqn:I; simpl.
  - destruct (list_collection_names db) as [names|e] eqn:L; simpl.
    + eexists. split; [reflexivity|]. split; [reflexivity|].
      right; right; right. exists db, names. repeat split; assumption.
    + eexists. split; [reflexivity|]. split; [reflexivity|].
      right; right; left. exists db, e. repeat split; assumption.
  - eexists. split; [reflexivity|]. split; [reflexivity|].
    right; left. repeat split.
  - destruct (is_import_error e); simpl;
      (eexists; split; [reflexivity|]; split; [reflexivity|];
       left; exists e; repeat split).
Qed.

(** X21.  The diagnostic endpoint always answers: whatever the import of
    the database module and the listing of the collections do, it returns a
    report and raises nothing, having imported the module and done nothing
    else.  In the report, [database_url] and [database_name] say only
    whether the variables DATABASE_URL and DATABASE_NAME are set to a
    non-empty string; the name of the database is never reported. *)
Theorem test_database_answers w dbm :
  exists r,
    test_database w dbm = ([IoImport "database"], Ok r)
    /\ backend r = "✅ Running"
    /\ database_url r
       = Some (if opt_str_truthy (environ w "DATABASE_URL")
               then "✅ Set" else "❌ Not Set")
    /\ database_name r
       = Some (if opt_str_truthy (environ w "DATABASE_NAME")
               then "✅ Set" else "❌ Not Set").
Proof.
  destruct (test_database_cases w dbm) as (r & E & B & _).
  eexists. split; [exact E|]. repeat split. exact B.
Qed.

(** X22.  The report lists at most ten collections: the first ten of those
    the database listed, in their order, and none unless the listing
    succeeded, in which case the status is "Connected & Working". *)
Theorem test_database_collections w dbm trace r :
  test_database w dbm = (trace, Ok r) ->
  (List.length (collections r) <= 10)%nat
  /\ (collections r <> [] ->
      exists db names,
        import_db dbm = Returns (Some db)
        /\ list_collection_names db = Returns names
        /\ collections r = firstn 10 names
        /\ database r = "✅ Connected & Working").
Proof.
  intros H.
  destruct (test_database_cases w dbm) as (r0 & E & _ & C).
  rewrite E in H. injection H as _ <-. simpl.
  destruct C as [(e & _ & _ & ->)|[(_ & _ & -> & _)
                |[(db & e & _ & _ & _ & -> & _)
                 |(db & names & I & L & _ & -> & D)]]];
    try (split; [simpl; lia | intros N; now contradiction N]).
  split; [apply firstn_le_length|].
  intros _. exists db, names. repeat split; assumption.
Qed.

Lemma test_database_collections_witness :
  test_database Samples.world_plain
    (Samples.db_module (Returns (Some Samples.twelve_collections)))
  = ([IoImport "database"],
     Ok (mkDiagnosis "✅ Running" "✅ Connected & Working"
           (Some "❌ Not Set") (Some "❌ Not Set") "Connected"
           ["c01"; "c02"; "c03"; "c04"; "c05"; "c06"; "c07"; "c08"; "c09"; "c10"]))
  /\ (List.length ["c01"; "c02"; "c03"; "c04"; "c05"; "c06"; "c07"; "c08";
                   "c09"; "c10"] <= 10)%nat.
Proof.
  assert (H : test_database Samples.world_plain
                (Samples.db_module (Returns (Some Samples.twelve_collections)))
              = ([IoImport "database"],
                 Ok (mkDiagnosis "✅ Running" "✅ Connected & Working"
                       (Some "❌ Not Set") (Some "❌ Not Set") "Connected"
                       ["c01"; "c02"; "c03"; "c04"; "c05"; "c06"; "c07"; "c08";
                        "c09"; "c10"]))) by reflexivity.
  split; [exact H|].
  exact (proj1 (test_database_collections _ _ _ _ H)).
Defined.

(** X23.  The report says "Connected" exactly when the import gave a
    database object, whether or not its collections could then be listed;
    in every other case it says "Not Connected". *)
Theorem test_database_connection w dbm trace r :
  test_database w dbm = (trace, Ok r) ->
  (connection_status r = "Connected"
   <-> exists db, import_db dbm = Returns (Some db))
  /\ (connection_status r = "Connected"
      \/ connection_status r = "Not Connected").
Proof.
  intros H.
  destruct (test_database_cases w dbm) as (r0 & E & _ & C).
  rewrite E in H. injection H as _ <-. simpl.
  destruct C as [(e & I & -> & _)|[(I & -> & _)
                |[(db & e & I & _ & -> & _)|(db & names & I & _ & -> & _)]]];
    rewrite I; (split; [split|]).
  all: try (intros D; discriminate D).
  all: try (intros (db' & D); discriminate D).
  all: try (intros _; eexists; reflexivity).
  all: try reflexivity.
  all: auto.
Qed.

Lemma test_database_connection_witness :
  test_database Samples.world_plain (Samples.db_module (Raises ImportError))
  = ([IoImport "database"],
     Ok (mkDiagnosis "✅ Running"
           "❌ Database module not found (run enable-database first)"
           (Some "❌ Not Set") (Some "❌ Not Set") "Not Connected" []))
  /\ (connection_status
        (mkDiagnosis "✅ Running"
           "❌ Database module not found (run enable-database first)"
           (Some "❌ Not Set") (Some "❌ Not Set") "Not Connected" [])
      = "Connected"
      \/ connection_status
           (mkDiagnosis "✅ Running"
              "❌ Database module not found (run enable-database first)"
              (Some "❌ Not Set") (Some "❌ Not Set") "Not Connected" [])
         = "Not Connected").
Proof.
  assert (H : test_database Samples.world_plain
                (Samples.db_module (Raises ImportError))
              = ([IoImport "database"],
                 Ok (mkDiagnosis "✅ Running"
                       "❌ Database module not found (run enable-database first)"
                       (Some "❌ Not Set") (Some "❌ Not Set") "Not Connected" [])))
    by reflexivity.
  split; [exact H|].
  exact (proj2 (test_database_connection _ _ _ _ H)).
Defined.

End DiagnosticsProps.

Section SlotEdges.

(** X24.  The cursor is advanced on the wall clock of the opening: every
    slot returned carries the UTC offset that was attached to the opening
    of the window, and its wall-clock reading is the opening's plus a whole
    number of slot lengths, even if the zone changes its offset within the
    window. *)
Theorem slots_keep_opening_offset fuel busy start end_ delta out :
  0 < delta ->
  slots_loop fuel busy end_ delta start [] = Ok out ->
  forall s, In s out ->
    utcoffset s = utcoffset start
    /\ exists k, (k < rounds start end_ delta)%nat
                 /\ wall s = wall start + Z.of_nat k * delta.
Proof.
  intros Hd L s Hs.
  rewrite (slots_loop_filter busy end_ delta Hd fuel start [] out L) in Hs.
  cbn [app] in Hs. apply filter_In in Hs as [Hs _].
  unfold candidates in Hs. apply in_map_iff in Hs as (k & <- & Hk).
  apply in_seq in Hk. split; [reflexivity|].
  exists k. split; [lia | reflexivity].
Qed.

Lemma slots_keep_opening_offset_witness :
  0 < US_PER_HOUR
  /\ slots_loop 5 Samples.busy_gap (Samples.sat 14 0) US_PER_HOUR
       (Samples.sat 10 0) []
     = Ok [Samples.sat 11 0; Samples.sat 13 0]
  /\ In (Samples.sat 13 0) [Samples.sat 11 0; Samples.sat 13 0]
  /\ utcoffset (Samples.sat 13 0) = utcoffset (Samples.sat 10 0)
  /\ exists k, (k < rounds (Samples.sat 10 0) (Samples.sat 14 0) US_PER_HOUR)%nat
               /\ wall (Samples.sat 13 0)
                  = wall (Samples.sat 10 0) + Z.of_nat k * US_PER_HOUR.
Proof.
  assert (H1 : 0 < US_PER_HOUR) by reflexivity.
  assert (H2 : slots_loop 5 Samples.busy_gap (Samples.sat 14 0) US_PER_HOUR
                 (Samples.sat 10 0) []
               = Ok [Samples.sat 11 0; Samples.sat 13 0]) by reflexivity.
  assert (H3 : In (Samples.sat 13 0) [Samples.sat 11 0; Samples.sat 13 0])
    by (right; left; reflexivity).
  repeat (split; [assumption|]).
  exact (slots_keep_opening_offset 5 Samples.busy_gap (Samples.sat 10 0)
           (Samples.sat 14 0) US_PER_HOUR _ H1 H2 _ H3).
Defined.

(** X25.  A slot length of zero or less never yields a response for a
    window that does not close before it opens: the test of the loop stays
    true, so the run either goes on for ever or ends in [OverflowError]
    when the cursor leaves the calendar; it never returns a list. *)
Theorem nonpositive_slot_never_returns fuel busy end_ delta : forall start acc out,
  delta <= 0 ->
  instant start <= instant end_ ->
  slots_loop fuel busy end_ delta start acc <> Ok out.
Proof.
  induction fuel as [|fuel IH]; intros start acc out Hd W; [discriminate|].
  rewrite slots_loop_round.
  destruct (aware_add start delta) as [nxt| |] eqn:E; try discriminate.
  apply aware_add_ok in E as [_ I].
  assert (L : dt_le nxt end_ = true) by (apply dt_le_spec; lia).
  rewrite L. apply IH; [exact Hd | lia].
Qed.

Lemma nonpositive_slot_never_returns_witness :
  - US_PER_HOUR <= 0
  /\ instant (Samples.sat 10 0) <= instant (Samples.sat 14 0)
  /\ slots_loop 5 Samples.busy_C (Samples.sat 14 0) (- US_PER_HOUR)
       (Samples.sat 10 0) [] = OutOfFuel
  /\ slots_loop 5 Samples.busy_C (Samples.sat 14 0) (- US_PER_HOUR)
       (Samples.sat 10 0) [] <> Ok [].
Proof.
  assert (H1 : - US_PER_HOUR <= 0) by (vm_compute; intros C; discriminate C).
  assert (H2 : instant (Samples.sat 10 0) <= instant (Samples.sat 14 0))
    by (vm_compute; intros C; discriminate C).
  repeat (split; [assumption || (vm_compute; reflexivity)|]).
  exact (nonpositive_slot_never_returns 5 Samples.busy_C (Samples.sat 14 0)
           (- US_PER_HOUR) (Samples.sat 10 0) [] [] H1 H2).
Defined.

End SlotEdges.
